(** * Session tokens of the auth package: issuance, validation, rotation

    A shallow embedding of [backend/internal/handlers/auth]: the handlers
    [Login], [Register], [AuthenticateMiddleware], [ValidateRefreshToken],
    [ValidateAndGenerateTokens] and [Logout], over the user record of
    [types.go].  The handlers call the package's [Service]; its methods and
    the token codec are modelled from the specification. *)

From Stdlib Require Import ZArith String Ascii List Bool Lia.
From Stdlib Require Import Decimal DecimalString DecimalPos DecimalZ.
From stdpp Require Import base option list gmap strings.

Local Open Scope string_scope.
Local Open Scope Z_scope.

(** ** Strings *)

Module Str.

(** [strings.Split(s, sep)] for a one-character separator: the pieces
    between the separators, the empty string giving one empty piece. *)
Fixpoint Split (sep : ascii) (s : string) : list string :=
  match s with
  | EmptyString => [EmptyString]
  | String a s' =>
      if Ascii.eqb a sep then EmptyString :: Split sep s'
      else match Split sep s' with
           | [] => [String a EmptyString]
           | p :: ps => String a p :: ps
           end
  end.

(** The text before and after the first occurrence of [sep]. *)
Fixpoint cut (sep : ascii) (s : string) : option (string * string) :=
  match s with
  | EmptyString => None
  | String a s' =>
      if Ascii.eqb a sep then Some (EmptyString, s')
      else match cut sep s' with
           | Some (l, r) => Some (String a l, r)
           | None => None
           end
  end.

(** [sep] does not occur in [s]. *)
Fixpoint lacks (sep : ascii) (s : string) : bool :=
  match s with
  | EmptyString => true
  | String a s' => negb (Ascii.eqb a sep) && lacks sep s'
  end.

(** [utf8.RuneCountInString], the length the validator's [min] tag
    measures: a byte below 0x80 is one character; a lead byte followed by
    the continuation bytes its range requires is one character together
    with them; any other byte is one character by itself. *)
Definition lead (c : N) : option (nat * (N * N)) :=
  (if c <? 0xC2 then None
   else if c <=? 0xDF then Some (2%nat, (0x80, 0xBF))
   else if c =? 0xE0 then Some (3%nat, (0xA0, 0xBF))
   else if c <=? 0xEC then Some (3%nat, (0x80, 0xBF))
   else if c =? 0xED then Some (3%nat, (0x80, 0x9F))
   else if c <=? 0xEF then Some (3%nat, (0x80, 0xBF))
   else if c =? 0xF0 then Some (4%nat, (0x90, 0xBF))
   else if c <=? 0xF3 then Some (4%nat, (0x80, 0xBF))
   else if c =? 0xF4 then Some (4%nat, (0x80, 0x8F))
   else None)%N.

Definition outside (c lo hi : N) : bool := ((c <? lo) || (hi <? c))%N.

(** The number of bytes the character starting with [c] takes, [rest]
    being the bytes after [c]. *)
Definition width (c : N) (rest : list N) : nat :=
  if (c <? 0x80)%N then 1%nat
  else
    match lead c with
    | None => 1%nat
    | Some (size, (lo, hi)) =>
        if (length rest <? size - 1)%nat then 1%nat
        else
          match rest with
          | c1 :: c2 :: c3 :: _ =>
              if outside c1 lo hi then 1%nat
              else if (size =? 2)%nat then 2%nat
              else if outside c2 0x80 0xBF then 1%nat
              else if (size =? 3)%nat then 3%nat
              else if outside c3 0x80 0xBF then 1%nat
              else 4%nat
          | c1 :: c2 :: _ =>
              if outside c1 lo hi then 1%nat
              else if (size =? 2)%nat then 2%nat
              else if outside c2 0x80 0xBF then 1%nat
              else 3%nat
          | c1 :: _ => if outside c1 lo hi then 1%nat else 2%nat
          | [] => 1%nat
          end
    end.

Fixpoint runes (fuel : nat) (bs : list N) : nat :=
  match fuel, bs with
  | S fuel', c :: rest => S (runes fuel' (skipn (width c rest - 1) rest))
  | _, _ => 0%nat
  end.

Definition RuneCountInString (s : string) : nat :=
  runes (String.length s) (List.map N_of_ascii (list_ascii_of_string s)).

End Str.

(** ** Failure kinds *)

(** Modelled from the spec: the failure kinds of its taxonomy, for the
    errors of the service, whose source is missing.  [Conflict] is the
    store refusing a second record for a principal.  [StoreUnavailable] is
    the transient fault of the infrastructure: the store modelled here
    answers every call, so no service call below reports it. *)
Inductive Kind :=
| InvalidSignature
| Expired
| Unauthorized
| ReuseDetected
| StoreUnavailable
| Conflict.

(** ** Token codec *)

Module Codec.

Inductive TokenClass := Access | Refresh.

(** What a token carries (spec, data model): the principal, the epoch in
    effect when it was issued, its class and its absolute expiry. *)
Record Claims := mkClaims {
  subject : string;
  epoch : Z;
  class : TokenClass;
  expiry : Z
}.

Definition class_tag (k : TokenClass) : ascii :=
  match k with Access => "a"%char | Refresh => "r"%char end.

Definition tag_class (a : ascii) : option TokenClass :=
  if Ascii.eqb a "a"%char then Some Access
  else if Ascii.eqb a "r"%char then Some Refresh
  else None.

Definition Z_to_string (z : Z) : string := NilZero.string_of_int (Z.to_int z).

Definition Z_of_string (s : string) : option Z :=
  option_map Z.of_int (NilZero.int_of_string s).

(** Modelled from the spec: the Token Codec, whose source is missing.  The
    spec fixes the contract ([issue] binds subject, epoch, class and expiry;
    [verify] depends on the token alone, returns what was bound and rejects
    everything else) and no wire format.  The format here is the class tag,
    then epoch and expiry in decimal, then the subject, separated by dots;
    a string carries a verifying signature exactly when it parses. *)
Definition encode (c : Claims) : string :=
  String (class_tag (class c))
    (Z_to_string (epoch c) +:+ "." +:+ Z_to_string (expiry c) +:+ "." +:+ subject c).

(** Modelled from the spec: the reading of a token, the inverse of
    [encode]. *)
Definition decode (token : string) : option Claims :=
  match token with
  | EmptyString => None
  | String a rest =>
      match tag_class a, Str.cut "."%char rest with
      | Some k, Some (e, rest') =>
          match Z_of_string e, Str.cut "."%char rest' with
          | Some e', Some (x, sub) =>
              match Z_of_string x with
              | Some x' => Some (mkClaims sub e' k x')
              | None => None
              end
          | _, _ => None
          end
      | _, _ => None
      end
  end.

(** Modelled from the spec: [issue(subject, epoch, class, ttl)] "produces a
    signed token with absolute expiry = now + ttl". *)
Definition issue (now : Z) (sub : string) (e : Z) (k : TokenClass) (ttl : Z) : string :=
  encode (mkClaims sub e k (now + ttl)).

(** Modelled from the spec: [verify(token)] is "purely a function of the
    token and the signing secret", rejecting tokens "past expiry with zero
    tolerance window". *)
Definition verify (now : Z) (token : string) : Claims + Kind :=
  match decode token with
  | None => inr InvalidSignature
  | Some c => if expiry c <? now then inr Expired else inl c
  end.

End Codec.

(** ** Errors *)

(** A Go [error]: one made by [fiber.NewError(code, message)] in a handler,
    or one returned by the service. *)
Inductive error :=
| NewError (code : Z) (message : string)
| ServiceError (kind : Kind).

(** Modelled from the spec: the text of a service error, whose source is
    missing, is taken to be the name of its kind. *)
Definition kind_text (k : Kind) : string :=
  match k with
  | InvalidSignature => "InvalidSignature"
  | Expired => "Expired"
  | Unauthorized => "Unauthorized"
  | ReuseDetected => "ReuseDetected"
  | StoreUnavailable => "StoreUnavailable"
  | Conflict => "Conflict"
  end.

(** [err.Error()]. *)
Definition Error (e : error) : string :=
  match e with
  | NewError _ m => m
  | ServiceError k => kind_text k
  end.

(** ** Data model ([types.go]) *)

(** [primitive.ObjectID], carried as its hexadecimal text. *)
Definition ObjectID := string.
Definition Hex (id : ObjectID) : string := id.

(** Documents of the category and activity packages, carried opaquely. *)
Record CategoryDocument := mkCategoryDocument { category_raw : string }.
Record ActivityDocument := mkActivityDocument { activity_raw : string }.

(** [type User struct]; [Count] and [TasksComplete] are [float64] fields
    holding whole numbers. *)
Record User := mkUser {
  ID : ObjectID;
  Email : string;
  Phone : string;
  Password : string;
  AppleID : string;
  GoogleID : string;
  RefreshToken : string;
  TokenUsed : bool;
  Count : Z;
  Categories : list CategoryDocument;
  Friends : list ObjectID;
  TasksComplete : Z;
  RecentActivity : list ActivityDocument;
  DisplayName : string;
  Handle : string;
  ProfilePicture : string
}.

Definition set_refresh (tok : string) (used : bool) (u : User) : User :=
  mkUser (ID u) (Email u) (Phone u) (Password u) (AppleID u) (GoogleID u)
    tok used (Count u)
    (Categories u) (Friends u) (TasksComplete u) (RecentActivity u)
    (DisplayName u) (Handle u) (ProfilePicture u).

Definition set_used (used : bool) (u : User) : User :=
  set_refresh (RefreshToken u) used u.

Definition set_count (n : Z) (u : User) : User :=
  mkUser (ID u) (Email u) (Phone u) (Password u) (AppleID u) (GoogleID u)
    (RefreshToken u) (TokenUsed u) n
    (Categories u) (Friends u) (TasksComplete u) (RecentActivity u)
    (DisplayName u) (Handle u) (ProfilePicture u).

(** [type LoginRequest struct] and [type RegisterRequest struct]: the same
    two fields under the same validation tags. *)
Record LoginRequest := mkLoginRequest {
  login_Email : string;      (* validate:"required,email" *)
  login_Password : string    (* validate:"required,min=8" *)
}.

Record RegisterRequest := mkRegisterRequest {
  register_Email : string;   (* validate:"required,email" *)
  register_Password : string (* validate:"required,min=8" *)
}.

(** The token lifetimes of [config.Config]: deployment configuration. *)
Record Config := mkConfig {
  AccessTTL : Z;
  RefreshTTL : Z
}.

(** The [users] collection, keyed by the hexadecimal id. *)
Abbreviation Users := (gmap string User).

(** ** The service *)

Module Service.

Import Codec.

(** Modelled from the spec: [GenerateTokens] is missing from the source.
    It is the spec's [issueInitialPair]: "issues an access token and a
    refresh token both bound to that epoch, persists the refresh token as
    currentRefreshToken with refreshUsed = false"; the caller supplies the
    epoch, and "before any persisted record exists" there is no record to
    update. *)
Definition GenerateTokens (cfg : Config) (now : Z) (users : Users)
    (id : string) (count : Z) : string * string * option error * Users :=
  let access := issue now id count Access (AccessTTL cfg) in
  let refresh := issue now id count Refresh (RefreshTTL cfg) in
  (access, refresh, None, alter (set_refresh refresh false) id users).

(** Modelled from the spec: [ValidateToken] is missing from the source.
    It is the spec's [validate]: "verifies signature/expiry via the Codec,
    then loads the principal record and requires token.epoch ==
    record.epoch"; an unknown principal and a stale epoch are Unauthorized.
    A failure carries no subject: the Go results are then the zero values. *)
Definition ValidateToken (now : Z) (users : Users) (token : string)
    : string * Z * option error :=
  match verify now token with
  | inr k => ("", 0, Some (ServiceError k))
  | inl c =>
      match users !! subject c with
      | None => ("", 0, Some (ServiceError Unauthorized))
      | Some u =>
          if Count u =? epoch c then (subject c, epoch c, None)
          else ("", 0, Some (ServiceError Unauthorized))
      end
  end.

(** Modelled from the spec: [CheckIfTokenUsed] is missing from the source.
    It reads the record's [refreshUsed]; an unknown principal is
    Unauthorized. *)
Definition CheckIfTokenUsed (users : Users) (user_id : string)
    : bool * option error :=
  match users !! user_id with
  | Some u => (TokenUsed u, None)
  | None => (false, Some (ServiceError Unauthorized))
  end.

(** Modelled from the spec: [UseToken] is missing from the source.  It is
    the store update "mark record.refreshUsed = true"; an unknown principal
    is Unauthorized, as for [CheckIfTokenUsed], and nothing is written. *)
Definition UseToken (users : Users) (user_id : string) : option error * Users :=
  match users !! user_id with
  | Some _ => (None, alter (set_used true) user_id users)
  | None => (Some (ServiceError Unauthorized), users)
  end.

(** Modelled from the spec: [InvalidateTokens] is missing from the source.
    It is the spec's [invalidateAll]: "increments epoch by exactly 1". *)
Definition InvalidateTokens (users : Users) (user_id : string)
    : option error * Users :=
  (None, alter (fun u => set_count (Count u + 1) u) user_id users).

(** Modelled from the spec: the store looks a record up "by identity,
    email, or third-party id"; this is the lookup by email. *)
Definition by_email (users : Users) (email : string) : option User :=
  snd <$> List.find (fun kv => String.eqb (Email (snd kv)) email) (map_to_list users).

(** Modelled from the spec: [CreateUser] is missing from the source.  The
    store "persists one record per principal": the record is filed under
    its id, and a second record for an id that has one is refused. *)
Definition CreateUser (users : Users) (user : User) : option error * Users :=
  match users !! Hex (ID user) with
  | None => (None, <[Hex (ID user) := user]> users)
  | Some _ => (Some (ServiceError Conflict), users)
  end.

(** Modelled from the spec: [LoginFromCredentials] is missing from the
    source.  It is the "successful credential verification" that precedes
    issuance: the record found by email, its password compared, gives the
    principal's id and current epoch. *)
Definition LoginFromCredentials (users : Users) (email password : string)
    : ObjectID * Z * option error :=
  match by_email users email with
  | Some u =>
      if String.eqb (Password u) password then (ID u, Count u, None)
      else ("", 0, Some (ServiceError Unauthorized))
  | None => ("", 0, Some (ServiceError Unauthorized))
  end.

End Service.

(** ** The request context ([fiber.Ctx]) *)

(** What a handler writes as the response body. *)
Inductive Payload :=
| NoPayload
| InvalidJSON                                 (* xerr.InvalidJSON() *)
| ValidationErrors (errs : list (string * string))
| BadRequest (e : error)                      (* xerr.BadRequest(err) *)
| Message (m : string)                        (* fiber.Map{"message": m} *)
| Text (s : string).                          (* c.SendString(s) *)

(** The JSON object of a request body, as its email and password fields;
    [None] when the body does not parse. *)
Record Ctx := mkCtx {
  RequestHeader : list (string * string);
  RequestBody : option (string * string);
  ResponseHeader : list (string * string);
  ResponseStatus : Z;
  ResponseBody : Payload
}.

Fixpoint assoc (key : string) (l : list (string * string)) : option string :=
  match l with
  | [] => None
  | (k, v) :: l' => if String.eqb k key then Some v else assoc key l'
  end.

(** [c.Get(key)]: the request header, or the empty string. *)
Definition Get (c : Ctx) (key : string) : string :=
  match assoc key (RequestHeader c) with
  | Some v => v
  | None => ""
  end.

(** [c.Response().Header.Add(key, value)]. *)
Definition HeaderAdd (key value : string) (c : Ctx) : Ctx :=
  mkCtx (RequestHeader c) (RequestBody c)
    (ResponseHeader c ++ [(key, value)]) (ResponseStatus c) (ResponseBody c).

(** [c.Status(status).JSON(body)] and [c.SendString(body)]. *)
Definition StatusJSON (status : Z) (body : Payload) (c : Ctx) : Ctx :=
  mkCtx (RequestHeader c) (RequestBody c) (ResponseHeader c) status body.

Definition SendString (s : string) (c : Ctx) : Ctx :=
  mkCtx (RequestHeader c) (RequestBody c) (ResponseHeader c)
    (ResponseStatus c) (Text s).

(** How a handler leaves: it returns a Go error (or nil), or it hands the
    request to the rest of the chain with [c.Next()]. *)
Inductive Flow :=
| Return (err : option error)
| Next.

(** ** The handlers *)

Module Handler.

Definition StatusBadRequest : Z := 400.
Definition StatusOK : Z := 200.

(** [func (h *Handler) ValidateRefreshToken]. *)
Definition ValidateRefreshToken (now : Z) (users : Users) (c : Ctx)
    (refreshToken : string) : Z * option error :=
  let '(user_id, count, err) := Service.ValidateToken now users refreshToken in
  match err with
  | Some e =>
      (0, Some (NewError 400
        ("Not Authorized: Access and Refresh Tokens are Expired " +:+ Error e)))
  | None =>
      let '(used, err) := Service.CheckIfTokenUsed users user_id in
      match err with
      | Some e =>
          (0, Some (NewError 400
            ("Not Authorized, Error Validating Token Reusage " +:+ Error e)))
      | None =>
          if used then (0, Some (NewError 400 "Not Authorized, Token Reuse Detected"))
          else (count, None)
      end
  end.

(** The tail of [ValidateAndGenerateTokens], from the call of
    [GenerateTokens] on: both branches of the function reach it with the
    [user_id] that validating the access token returned. *)
Definition generate_and_use (cfg : Config) (now : Z) (users : Users)
    (user_id : string) (count : Z) : string * string * option error * Users :=
  let '(access, refresh, err, users1) :=
    Service.GenerateTokens cfg now users user_id count in
  match err with
  | Some _ =>
      ("", "", Some (NewError 400 "Not Authorized, Error Generating Tokens"), users1)
  | None =>
      let '(err, users2) := Service.UseToken users1 user_id in
      match err with
      | Some _ =>
          ("", "", Some (NewError 400 "Not Authorized, Error Updating Token Usage"),
           users2)
      | None => (access, refresh, None, users2)
      end
  end.

(** [func (h *Handler) ValidateAndGenerateTokens]. *)
Definition ValidateAndGenerateTokens (cfg : Config) (now : Z) (users : Users)
    (c : Ctx) (accessToken refreshToken : string)
    : string * string * option error * Users :=
  let '(user_id, count, err) := Service.ValidateToken now users accessToken in
  match err with
  | Some _ =>
      let '(count, err) := ValidateRefreshToken now users c refreshToken in
      match err with
      | Some e => ("", "", Some e, users)
      | None => generate_and_use cfg now users user_id count
      end
  | None => generate_and_use cfg now users user_id count
  end.

(** The header checks shared by [AuthenticateMiddleware] and [Logout]:
    the access token of [Authorization: Bearer <token>], or the error. *)
Definition bearer (header : string) : string + error :=
  if (String.length header =? 0)%nat then
    inr (NewError 400 "Not Authorized, Tokens not passed")
  else
    match Str.Split " "%char header with
    | [tokenType; accessToken] =>
        if negb (String.eqb tokenType "Bearer") then
          inr (NewError 400 "Not Authorized, Invalid Token Type")
        else inl accessToken
    | _ => inr (NewError 400 "Not Authorized, Invalid Token Format")
    end.

(** [func (h *Handler) AuthenticateMiddleware]. *)
Definition AuthenticateMiddleware (cfg : Config) (now : Z) (users : Users)
    (c : Ctx) : Flow * Users * Ctx :=
  let header := Get c "Authorization" in
  let refreshToken := Get c "refresh_token" in
  match bearer header with
  | inr e => (Return (Some e), users, c)
  | inl accessToken =>
      let '(access, refresh, err, users') :=
        ValidateAndGenerateTokens cfg now users c accessToken refreshToken in
      match err with
      | Some e => (Return (Some e), users', c)
      | None =>
          (Next, users',
           HeaderAdd "refresh_token" refresh (HeaderAdd "access_token" access c))
      end
  end.

(** [func (h *Handler) Logout]. *)
Definition Logout (now : Z) (users : Users) (c : Ctx)
    : option error * Users * Ctx :=
  let header := Get c "Authorization" in
  match bearer header with
  | inr e => (Some e, users, c)
  | inl accessToken =>
      let '(user_id, _, err) := Service.ValidateToken now users accessToken in
      match err with
      | Some e => (Some e, users, c)
      | None =>
          let '(err, users') := Service.InvalidateTokens users user_id in
          match err with
          | Some e => (Some e, users', c)
          | None => (None, users', SendString "Logout Successful" c)
          end
      end
  end.

(** [xvalidator.Validator.Validate] on the two request fields: the tags
    [required] and [min=8] of [types.go], the latter counting characters;
    the [email] format check of the validation library is a parameter. *)
Definition validate_fields (is_email : string -> bool) (email password : string)
    : list (string * string) :=
  (if String.eqb email "" then [("Email", "required")]
   else if is_email email then [] else [("Email", "email")])
  ++
  (if String.eqb password "" then [("Password", "required")]
   else if (Str.RuneCountInString password <? 8)%nat then [("Password", "min")]
   else []).

Section Accounts.

(** The [email] format check of the validation library, and
    [user.Validate()], whose source is missing. *)
Variable is_email : string -> bool.
Variable UserValidate : User -> option error.

(** [func (h *Handler) Login]. *)
Definition Login (cfg : Config) (now : Z) (users : Users) (c : Ctx)
    : option error * Users * Ctx :=
  match RequestBody c with
  | None => (None, users, StatusJSON StatusBadRequest InvalidJSON c)
  | Some (email, password) =>
      let req := mkLoginRequest email password in
      let errs := validate_fields is_email (login_Email req) (login_Password req) in
      if (0 <? length errs)%nat then
        (None, users, StatusJSON StatusBadRequest (ValidationErrors errs) c)
      else
        let '(id, count, err) :=
          Service.LoginFromCredentials users (login_Email req) (login_Password req) in
        match err with
        | Some e => (Some e, users, c)
        | None =>
            let '(access, refresh, err, users') :=
              Service.GenerateTokens cfg now users (Hex id) count in
            (err, users',
             HeaderAdd "refresh_token" refresh (HeaderAdd "access_token" access c))
        end
  end.

(** The [User] literal of [Register]. *)
Definition new_user (req : RegisterRequest) (id : ObjectID) (refresh : string)
    : User :=
  {| Email := register_Email req;
     Password := register_Password req;
     ID := id;
     RefreshToken := refresh;
     TokenUsed := false;
     Count := 0;
     Categories := [];
     Friends := [];
     TasksComplete := 0;
     RecentActivity := [];
     DisplayName := "Default Username";
     Handle := "@default";
     ProfilePicture :=
       "https://i.pinimg.com/736x/bd/46/35/bd463547b9ae986ba4d44d717828eb09.jpg";
     Phone := "";
     AppleID := "";
     GoogleID := "" |}.

(** [func (h *Handler) Register]; [id] is what [primitive.NewObjectID()]
    returns. *)
Definition Register (cfg : Config) (now : Z) (id : ObjectID) (users : Users)
    (c : Ctx) : option error * Users * Ctx :=
  match RequestBody c with
  | None => (None, users, StatusJSON StatusBadRequest InvalidJSON c)
  | Some (email, password) =>
      let req := mkRegisterRequest email password in
      let errs :=
        validate_fields is_email (register_Email req) (register_Password req) in
      if (0 <? length errs)%nat then
        (None, users, StatusJSON StatusBadRequest (ValidationErrors errs) c)
      else
        let '(access, refresh, err, users1) :=
          Service.GenerateTokens cfg now users (Hex id) 0 in
        match err with
        | Some e => (Some e, users1, c)
        | None =>
            let c1 := HeaderAdd "refresh_token" refresh
                        (HeaderAdd "access_token" access c) in
            let user := new_user req id refresh in
            match UserValidate user with
            | Some e => (None, users1, StatusJSON StatusBadRequest (BadRequest e) c1)
            | None =>
                let '(err, users2) := Service.CreateUser users1 user in
                match err with
                | Some e =>
                    (None, users2, StatusJSON StatusBadRequest (BadRequest e) c1)
                | None =>
                    (None, users2,
                     StatusJSON StatusOK (Message "User Created Successfully") c1)
                end
            end
        end
  end.

End Accounts.

End Handler.

(** ** Concurrent requests *)

Module Interleaving.

(** Where a call of [ValidateAndGenerateTokens] stands between two calls of
    the service, with the locals it holds there.  Each service call is one
    operation of the store; nothing in the handler groups them. *)
Inductive Pc :=
| AtValidateAccess
| AtValidateRefresh (user_id : string)
| AtCheckIfTokenUsed (user_id : string) (refresh_id : string) (count : Z)
| AtGenerateTokens (user_id : string) (count : Z)
| AtUseToken (user_id : string) (access refresh : string)
| Returned (access refresh : string) (err : option error).

(** A request in flight: the two tokens it presented and where it stands. *)
Record Call := mkCall {
  accessToken : string;
  refreshToken : string;
  pc : Pc
}.

(** One service call of one request. *)
Definition step (cfg : Config) (now : Z) (users : Users) (k : Call)
    : Users * Call :=
  let at_ p := mkCall (accessToken k) (refreshToken k) p in
  match pc k with
  | AtValidateAccess =>
      let '(user_id, count, err) :=
        Service.ValidateToken now users (accessToken k) in
      match err with
      | Some _ => (users, at_ (AtValidateRefresh user_id))
      | None => (users, at_ (AtGenerateTokens user_id count))
      end
  | AtValidateRefresh user_id =>
      let '(refresh_id, count, err) :=
        Service.ValidateToken now users (refreshToken k) in
      match err with
      | Some e =>
          (users, at_ (Returned "" "" (Some (NewError 400
             ("Not Authorized: Access and Refresh Tokens are Expired "
              +:+ Error e)))))
      | None => (users, at_ (AtCheckIfTokenUsed user_id refresh_id count))
      end
  | AtCheckIfTokenUsed user_id refresh_id count =>
      let '(used, err) := Service.CheckIfTokenUsed users refresh_id in
      match err with
      | Some e =>
          (users, at_ (Returned "" "" (Some (NewError 400
             ("Not Authorized, Error Validating Token Reusage " +:+ Error e)))))
      | None =>
          if used then
            (users, at_ (Returned "" "" (Some (NewError 400
               "Not Authorized, Token Reuse Detected"))))
          else (users, at_ (AtGenerateTokens user_id count))
      end
  | AtGenerateTokens user_id count =>
      let '(access, refresh, err, users1) :=
        Service.GenerateTokens cfg now users user_id count in
      match err with
      | Some _ =>
          (users1, at_ (Returned "" "" (Some (NewError 400
             "Not Authorized, Error Generating Tokens"))))
      | None => (users1, at_ (AtUseToken user_id access refresh))
      end
  | AtUseToken user_id access refresh =>
      let '(err, users2) := Service.UseToken users user_id in
      match err with
      | Some _ =>
          (users2, at_ (Returned "" "" (Some (NewError 400
             "Not Authorized, Error Updating Token Usage"))))
      | None => (users2, at_ (Returned access refresh None))
      end
  | Returned _ _ _ => (users, k)
  end.

(** A call run alone: at most five service calls. *)
Definition alone (cfg : Config) (now : Z) (users : Users) (k : Call)
    : Users * Call :=
  Nat.iter 5 (fun s => step cfg now (fst s) (snd s)) (users, k).

(** The calls in flight, advanced as a schedule says: each entry names the
    call that makes its next service call. *)
Fixpoint run (cfg : Config) (now : Z) (schedule : list nat) (users : Users)
    (calls : list Call) : Users * list Call :=
  match schedule with
  | [] => (users, calls)
  | i :: rest =>
      match calls !! i with
      | None => run cfg now rest users calls
      | Some k =>
          let '(users', k') := step cfg now users k in
          run cfg now rest users' (<[i := k']> calls)
      end
  end.

Definition succeeded (k : Call) : bool :=
  match pc k with
  | Returned _ _ None => true
  | _ => false
  end.

Definition failed (k : Call) : bool :=
  match pc k with
  | Returned _ _ (Some _) => true
  | _ => false
  end.

End Interleaving.

(** ** A small deployment, for evaluating the handlers *)

Module Sample.

Definition cfg : Config := mkConfig 3600 2592000.

Definition no_email_check (_ : string) : bool := true.
Definition accept_user (_ : User) : option error := None.
Definition reject_user (_ : User) : option error :=
  Some (ServiceError Conflict).

Definition bob_id : ObjectID := "65f0c0ffee0000000000b0b0".
Definition ann_id : ObjectID := "65f0c0ffee0000000000a22a".

Definition credentials (email password : string) : Ctx :=
  mkCtx [] (Some (email, password)) [] 200 NoPayload.

(** A request presenting an access token and a refresh token. *)
Definition request (access refresh : string) : Ctx :=
  mkCtx [("Authorization", "Bearer " +:+ access); ("refresh_token", refresh)]
    None [] 200 NoPayload.

(** Bob registers at time 1000. *)
Definition registered : Users :=
  snd (fst (Handler.Register no_email_check accept_user cfg 1000 bob_id ∅
              (credentials "bob@example.org" "correct horse"))).

(** The pair Bob got at registration. *)
Definition bob_access : string :=
  Codec.issue 1000 bob_id 0 Codec.Access (AccessTTL cfg).
Definition bob_refresh : string :=
  Codec.issue 1000 bob_id 0 Codec.Refresh (RefreshTTL cfg).

(** An access token that does not verify. *)
Definition garbage : string := "not-a-token".

(** Bob logs in again at time 1500: the store then holds the refresh token
    of that login, not the one of the registration. *)
Definition relogged : Users :=
  snd (fst (Handler.Login no_email_check cfg 1500 registered
              (credentials "bob@example.org" "correct horse"))).

(** Bob makes an authenticated request at time 1200 with his access token. *)
Definition after_request : Users :=
  snd (fst (Handler.AuthenticateMiddleware cfg 1200 registered
              (request bob_access bob_refresh))).

(** A refresh token for an id that has no record. *)
Definition ann_refresh : string :=
  Codec.issue 1000 ann_id 0 Codec.Refresh (RefreshTTL cfg).

End Sample.

(** ** What the client is told *)

Module Client.

(** The error the middleware answers a request with, when it rejects it. *)
Definition rejection (cfg : Config) (now : Z) (users : Users) (c : Ctx)
    : option error :=
  match Handler.AuthenticateMiddleware cfg now users c with
  | (Return (Some e), _, _) => Some e
  | _ => None
  end.

End Client.

(** ** Requests served one after another *)

Module Traffic.

(** A request reaching one of the handlers, with the time it is served at;
    a registration also with the id [primitive.NewObjectID()] returns. *)
Inductive Request :=
| ToLogin (now : Z) (c : Ctx)
| ToRegister (now : Z) (id : ObjectID) (c : Ctx)
| ToProtected (now : Z) (c : Ctx)
| ToLogout (now : Z) (c : Ctx).

Section Accounts.

Variable is_email : string -> bool.
Variable UserValidate : User -> option error.

(** The store a request leaves; a protected route is any route behind
    [AuthenticateMiddleware]. *)
Definition handle (cfg : Config) (users : Users) (r : Request) : Users :=
  match r with
  | ToLogin now c => snd (fst (Handler.Login is_email cfg now users c))
  | ToRegister now id c =>
      snd (fst (Handler.Register is_email UserValidate cfg now id users c))
  | ToProtected now c => snd (fst (Handler.AuthenticateMiddleware cfg now users c))
  | ToLogout now c => snd (fst (Handler.Logout now users c))
  end.

Definition serve (cfg : Config) (users : Users) (reqs : list Request) : Users :=
  fold_left (handle cfg) reqs users.

End Accounts.

(** What a record keeps while requests are served: who it is, and a
    counter that does not go back. *)
Definition kept (u u' : User) : Prop :=
  ID u' = ID u /\ Email u' = Email u /\ Password u' = Password u /\
  Count u <= Count u'.

(** Every record is filed under its own id. *)
Definition keyed (users : Users) : Prop :=
  forall k u, users !! k = Some u -> Hex (ID u) = k.

End Traffic.

(** * Properties *)

(** ** The codec round-trips *)

Module CodecFacts.

Import Codec.

Lemma cut_app (sep : ascii) (a b : string) :
  Str.lacks sep a = true ->
  Str.cut sep (a +:+ String sep b) = Some (a, b).
Proof.
  induction a as [|x a IH]; simpl.
  - intros _. now rewrite Ascii.eqb_refl.
  - intros H. apply andb_prop in H as [Hx Ha].
    apply negb_true_iff in Hx. rewrite Hx, (IH Ha). reflexivity.
Qed.

Lemma lacks_dot_uint (d : uint) :
  Str.lacks "."%char (NilEmpty.string_of_uint d) = true.
Proof. induction d; simpl; auto. Qed.

Lemma lacks_dot_Z (z : Z) : Str.lacks "."%char (Z_to_string z) = true.
Proof.
  unfold Z_to_string, NilZero.string_of_int, NilZero.string_of_uint.
  destruct z as [|p|p]; cbn [Z.to_int]; [reflexivity| |];
    destruct (Pos.to_uint p) eqn:E; try reflexivity;
    rewrite <- E; cbn [Str.lacks negb Ascii.eqb]; apply lacks_dot_uint.
Qed.

Lemma Z_of_to_string (z : Z) : Z_of_string (Z_to_string z) = Some z.
Proof.
  unfold Z_of_string, Z_to_string.
  rewrite NilZero.isi.
  - simpl. now rewrite DecimalZ.of_to.
  - destruct z as [|p|p]; simpl; try discriminate.
    intros [= H]. exact (Unsigned.to_uint_nonnil p H).
  - destruct z as [|p|p]; simpl; try discriminate.
    intros [= H]. exact (Unsigned.to_uint_nonnil p H).
Qed.

Lemma tag_class_tag (k : TokenClass) : tag_class (class_tag k) = Some k.
Proof. now destruct k. Qed.

(** Every set of claims is read back from its token. *)
Lemma decode_encode (c : Claims) : decode (encode c) = Some c.
Proof.
  destruct c as [sub e k x]. unfold encode, decode.
  cbn [class epoch expiry subject].
  rewrite tag_class_tag.
  change ("." +:+ ?r) with (String "."%char r).
  rewrite (cut_app "."%char (Z_to_string e)) by apply lacks_dot_Z.
  rewrite Z_of_to_string.
  change ("." +:+ ?r) with (String "."%char r).
  rewrite (cut_app "."%char (Z_to_string x)) by apply lacks_dot_Z.
  now rewrite Z_of_to_string.
Qed.

(** The spec's round trip: a token verifies until its expiry, to what was
    bound at issuance. *)
Lemma verify_issue (now now' : Z) (sub : string) (e : Z) (k : TokenClass) (ttl : Z) :
  now' <= now + ttl ->
  verify now' (issue now sub e k ttl) = inl (mkClaims sub e k (now + ttl)).
Proof.
  intros H. unfold verify, issue. rewrite decode_encode. simpl.
  destruct (Z.ltb_spec (now + ttl) now'); [lia | reflexivity].
Qed.

End CodecFacts.

(** ** What the service calls do to the store *)

Module ServiceFacts.

Import Codec.

(** A successful validation names a principal that has a record at the
    token's epoch. *)
Lemma ValidateToken_ok (now : Z) (users : Users) (token user_id : string) (count : Z) :
  Service.ValidateToken now users token = (user_id, count, None) ->
  exists c u,
    verify now token = inl c /\ subject c = user_id /\ epoch c = count /\
    users !! user_id = Some u /\ Count u = count.
Proof.
  unfold Service.ValidateToken.
  destruct (verify now token) as [c|k]; [|discriminate].
  destruct (users !! subject c) as [u|] eqn:Hu; [|discriminate].
  destruct (Z.eqb_spec (Count u) (epoch c)) as [E|E]; [|discriminate].
  intros [= <- <-]. exists c, u. auto.
Qed.

(** A failed validation returns the zero values. *)
Lemma ValidateToken_err (now : Z) (users : Users) (token user_id : string)
    (count : Z) (e : error) :
  Service.ValidateToken now users token = (user_id, count, Some e) ->
  user_id = "" /\ count = 0 /\ exists k, e = ServiceError k.
Proof.
  unfold Service.ValidateToken.
  destruct (verify now token) as [c|k].
  - destruct (users !! subject c) as [u|].
    + destruct (Count u =? epoch c); intros [= <- <- <-]; eauto.
    + intros [= <- <- <-]; eauto.
  - intros [= <- <- <-]; eauto.
Qed.

(** Validation of a token whose subject has a record, by cases. *)
Lemma ValidateToken_decoded (now : Z) (users : Users) (token : string)
    (c : Claims) (u : User) :
  decode token = Some c ->
  users !! subject c = Some u ->
  Service.ValidateToken now users token =
    if expiry c <? now then ("", 0, Some (ServiceError Expired))
    else if Count u =? epoch c then (subject c, epoch c, None)
    else ("", 0, Some (ServiceError Unauthorized)).
Proof.
  intros Hd Hu. unfold Service.ValidateToken, verify. rewrite Hd.
  destruct (expiry c <? now); [reflexivity|]. now rewrite Hu.
Qed.

Lemma alter_absent (f : User -> User) (users : Users) (id : string) :
  users !! id = None -> alter f id users = users.
Proof.
  intros H. apply map_eq. intros j. rewrite lookup_alter.
  case_decide; [subst; now rewrite H | reflexivity].
Qed.

Lemma alter_as_insert (f : User -> User) (users : Users) (k : string) (u : User) :
  users !! k = Some u -> alter f k users = <[k := f u]> users.
Proof.
  intros Hu. apply map_eq. intros j.
  rewrite lookup_alter, lookup_insert. case_decide; [now rewrite Hu | reflexivity].
Qed.

(** Issuing and then marking used, as one update of the record. *)
Lemma use_after_generate (tok : string) (users : Users) (id : string) :
  alter (set_used true) id (alter (set_refresh tok false) id users)
  = alter (set_refresh tok true) id users.
Proof.
  rewrite alter_alter_eq. apply alter_ext. now intros [] _.
Qed.

End ServiceFacts.

(** ** What the handlers do *)

Module HandlerFacts.

Import Codec ServiceFacts.

(** The tail of [ValidateAndGenerateTokens], by whether the user id it is
    given has a record: the pair, with the record holding the new refresh
    token and the flag set; or the error of [UseToken] refusing the id,
    with the store as it was. *)
Lemma generate_and_use_eq (cfg : Config) (now : Z) (users : Users)
    (user_id : string) (count : Z) :
  Handler.generate_and_use cfg now users user_id count =
    match users !! user_id with
    | Some _ =>
        (issue now user_id count Access (AccessTTL cfg),
         issue now user_id count Refresh (RefreshTTL cfg),
         None,
         alter (set_refresh (issue now user_id count Refresh (RefreshTTL cfg)) true)
           user_id users)
    | None =>
        ("", "", Some (NewError 400 "Not Authorized, Error Updating Token Usage"),
         users)
    end.
Proof.
  unfold Handler.generate_and_use, Service.GenerateTokens, Service.UseToken.
  rewrite lookup_alter_eq.
  destruct (users !! user_id) as [u|] eqn:Hu; cbn.
  - now rewrite use_after_generate.
  - now rewrite (alter_absent _ _ _ Hu).
Qed.

Lemma generate_and_use_known (cfg : Config) (now : Z) (users : Users)
    (user_id : string) (count : Z) (u : User) :
  users !! user_id = Some u ->
  Handler.generate_and_use cfg now users user_id count =
    (issue now user_id count Access (AccessTTL cfg),
     issue now user_id count Refresh (RefreshTTL cfg),
     None,
     alter (set_refresh (issue now user_id count Refresh (RefreshTTL cfg)) true)
       user_id users).
Proof. intros Hu. now rewrite generate_and_use_eq, Hu. Qed.

Lemma generate_and_use_unknown (cfg : Config) (now : Z) (users : Users)
    (user_id : string) (count : Z) :
  users !! user_id = None ->
  Handler.generate_and_use cfg now users user_id count =
    ("", "", Some (NewError 400 "Not Authorized, Error Updating Token Usage"),
     users).
Proof. intros Hu. now rewrite generate_and_use_eq, Hu. Qed.

Lemma refresh_accepted_inv (now : Z) (users : Users) (c : Ctx) (token : string)
    (n : Z) :
  Handler.ValidateRefreshToken now users c token = (n, None) ->
  exists p u,
    Service.ValidateToken now users token = (p, n, None) /\
    users !! p = Some u /\ TokenUsed u = false.
Proof.
  unfold Handler.ValidateRefreshToken, Service.CheckIfTokenUsed.
  destruct (Service.ValidateToken now users token) as [[p n'] [e|]];
    [discriminate|].
  destruct (users !! p) as [u|] eqn:Hu; [|discriminate].
  destruct (TokenUsed u) eqn:Hused; [discriminate|].
  intros [= <-]. eauto.
Qed.

Lemma refresh_accepted (now : Z) (users : Users) (c : Ctx) (token p : string)
    (n : Z) (u : User) :
  Service.ValidateToken now users token = (p, n, None) ->
  users !! p = Some u ->
  TokenUsed u = false ->
  Handler.ValidateRefreshToken now users c token = (n, None).
Proof.
  intros Hv Hu Hused.
  unfold Handler.ValidateRefreshToken, Service.CheckIfTokenUsed.
  now rewrite Hv, Hu, Hused.
Qed.

Lemma refresh_refused (now : Z) (users : Users) (c : Ctx) (token : string)
    (n : Z) (e : error) :
  Handler.ValidateRefreshToken now users c token = (n, Some e) ->
  n = 0 /\ exists message, e = NewError 400 message.
Proof.
  unfold Handler.ValidateRefreshToken, Service.CheckIfTokenUsed.
  destruct (Service.ValidateToken now users token) as [[p n'] [e'|]].
  - intros [= <- <-]. eauto.
  - destruct (users !! p) as [u|].
    + destruct (TokenUsed u); [|discriminate]. intros [= <- <-]. eauto.
    + intros [= <- <-]. eauto.
Qed.

(** A call whose access token validates issues the principal's pair and
    rewrites the principal's record. *)
Lemma access_path (cfg : Config) (now : Z) (users : Users) (c : Ctx)
    (accessToken refreshToken p : string) (n : Z) :
  Service.ValidateToken now users accessToken = (p, n, None) ->
  Handler.ValidateAndGenerateTokens cfg now users c accessToken refreshToken =
    (issue now p n Access (AccessTTL cfg),
     issue now p n Refresh (RefreshTTL cfg),
     None,
     alter (set_refresh (issue now p n Refresh (RefreshTTL cfg)) true) p users).
Proof.
  intros Hv. unfold Handler.ValidateAndGenerateTokens. rewrite Hv.
  destruct (ValidateToken_ok _ _ _ _ _ Hv) as (cl & u & _ & _ & _ & Hu & _).
  exact (generate_and_use_known _ _ _ _ _ _ Hu).
Qed.

(** A call whose access token fails validation: the error of
    [ValidateRefreshToken], or what the tail does with the empty user id
    the failed validation left. *)
Lemma refresh_path (cfg : Config) (now : Z) (users : Users) (c : Ctx)
    (accessToken refreshToken : string) (e0 : error) :
  snd (Service.ValidateToken now users accessToken) = Some e0 ->
  Handler.ValidateAndGenerateTokens cfg now users c accessToken refreshToken =
    match Handler.ValidateRefreshToken now users c refreshToken with
    | (_, Some e) => ("", "", Some e, users)
    | (n, None) => Handler.generate_and_use cfg now users "" n
    end.
Proof.
  intros Ha. unfold Handler.ValidateAndGenerateTokens.
  destruct (Service.ValidateToken now users accessToken) as [[p n0] err] eqn:Hv.
  cbn [snd] in Ha. subst err.
  destruct (ValidateToken_err _ _ _ _ _ _ Hv) as (-> & _ & _).
  now destruct (Handler.ValidateRefreshToken now users c refreshToken)
    as [n [e|]].
Qed.

(** A set flag makes [ValidateRefreshToken] answer with the reuse error. *)
Lemma used_flag_rejects (now : Z) (users : Users) (c : Ctx) (token user_id : string)
    (count : Z) (u : User) :
  Service.ValidateToken now users token = (user_id, count, None) ->
  users !! user_id = Some u ->
  TokenUsed u = true ->
  Handler.ValidateRefreshToken now users c token =
    (0, Some (NewError 400 "Not Authorized, Token Reuse Detected")).
Proof.
  intros Hv Hu Hused. unfold Handler.ValidateRefreshToken.
  rewrite Hv. unfold Service.CheckIfTokenUsed. now rewrite Hu, Hused.
Qed.

End HandlerFacts.

(** ** Logout *)

Module LogoutFacts.

Import Codec ServiceFacts.

(** C5.  After a successful logout of a principal (the epoch counter
    advanced by [InvalidateTokens]), every token of that principal issued
    before the call, that is, carrying an epoch no larger than the counter
    the call found, is rejected by [ValidateToken]: with Unauthorized as
    long as it is unexpired, whatever its expiry. *)
Theorem logout_invalidates_issued_tokens
    (now : Z) (users users' : Users) (c c' : Ctx)
    (accessToken principal : string) (count : Z) (u : User)
    (now' : Z) (token : string) (cl : Claims) :
  Handler.bearer (Get c "Authorization") = inl accessToken ->
  Service.ValidateToken now users accessToken = (principal, count, None) ->
  Handler.Logout now users c = (None, users', c') ->
  users !! principal = Some u ->
  decode token = Some cl ->
  subject cl = principal ->
  epoch cl <= Count u ->
  users' !! principal = Some (set_count (Count u + 1) u) /\
  Service.ValidateToken now' users' token =
    ("", 0, Some (ServiceError (if expiry cl <? now' then Expired else Unauthorized))).
Proof.
  intros Hb Hv Hl Hu Hd Hs He. subst principal.
  unfold Handler.Logout in Hl. rewrite Hb, Hv in Hl.
  unfold Service.InvalidateTokens in Hl. injection Hl as <- <-.
  assert (Hu' : alter (fun u0 => set_count (Count u0 + 1) u0) (subject cl) users
                  !! subject cl = Some (set_count (Count u + 1) u)).
  { now rewrite lookup_alter_eq, Hu. }
  split; [exact Hu'|].
  rewrite (ValidateToken_decoded now' _ token cl _ Hd Hu').
  destruct (expiry cl <? now'); [reflexivity|].
  cbn [Count set_count].
  destruct (Z.eqb_spec (Count u + 1) (epoch cl)); [lia | reflexivity].
Qed.

(** Bob logs out at time 2000; the refresh token of his registration,
    valid for a month, is Unauthorized one second later. *)
Lemma logout_invalidates_issued_tokens_witness :
  Service.ValidateToken 2001
    (snd (fst (Handler.Logout 2000 Sample.registered
                 (Sample.request Sample.bob_access Sample.bob_refresh))))
    Sample.bob_refresh
  = ("", 0, Some (ServiceError Unauthorized)).
Proof.
  refine (proj2 (logout_invalidates_issued_tokens 2000 Sample.registered _
           (Sample.request Sample.bob_access Sample.bob_refresh) _
           Sample.bob_access Sample.bob_id 0
           (Handler.new_user (mkRegisterRequest "bob@example.org" "correct horse")
              Sample.bob_id Sample.bob_refresh)
           2001 Sample.bob_refresh
           (mkClaims Sample.bob_id 0 Refresh 2593000)
           _ _ _ _ _ _ _));
    try reflexivity; vm_compute; try reflexivity; discriminate.
Defined.

End LogoutFacts.

(** ** The authentication middleware *)

Module MiddlewareFacts.

Import Codec ServiceFacts HandlerFacts.

(** C7.  In a store with no record under the empty id, every request that
    passes the middleware is one whose access token validates by itself.
    It gets a pair issued at that moment for the token's subject at the
    token's epoch, and [GenerateTokens] followed by [UseToken] rewrite the
    subject's record: it holds the new refresh token with the used flag
    set.  The store is written on every such request, and the refresh
    token issued before is burned with it: [ValidateRefreshToken] answers
    every token that validates for the principal with the reuse error. *)
Theorem middleware_pass_reissues_and_burns
    (cfg : Config) (now : Z) (users users' : Users) (c c' : Ctx) :
  users !! "" = None ->
  Handler.AuthenticateMiddleware cfg now users c = (Next, users', c') ->
  exists accessToken p n u,
    Handler.bearer (Get c "Authorization") = inl accessToken /\
    Service.ValidateToken now users accessToken = (p, n, None) /\
    users !! p = Some u /\ Count u = n /\
    let access := issue now p n Access (AccessTTL cfg) in
    let refresh := issue now p n Refresh (RefreshTTL cfg) in
    c' = HeaderAdd "refresh_token" refresh (HeaderAdd "access_token" access c) /\
    users' = <[p := set_refresh refresh true u]> users /\
    forall now' c2 presented n',
      Service.ValidateToken now' users' presented = (p, n', None) ->
      Handler.ValidateRefreshToken now' users' c2 presented =
        (0, Some (NewError 400 "Not Authorized, Token Reuse Detected")).
Proof.
  intros Hempty. unfold Handler.AuthenticateMiddleware.
  destruct (Handler.bearer (Get c "Authorization")) as [accessToken|e] eqn:Hb;
    [|discriminate].
  destruct (Service.ValidateToken now users accessToken) as [[p n] [e|]] eqn:Hv.
  - rewrite (refresh_path _ _ _ _ _ _ e) by now rewrite Hv.
    destruct (Handler.ValidateRefreshToken now users c (Get c "refresh_token"))
      as [n' [e'|]]; [discriminate|].
    rewrite (generate_and_use_unknown _ _ _ _ _ Hempty). discriminate.
  - rewrite (access_path _ _ _ _ _ _ _ _ Hv). intros [= <- <-].
    destruct (ValidateToken_ok _ _ _ _ _ Hv) as (cl & u & _ & _ & _ & Hu & Hc).
    exists accessToken, p, n, u.
    rewrite (alter_as_insert _ _ _ _ Hu).
    repeat split; auto.
    intros now' c2 presented n' Hp.
    eapply used_flag_rejects; [exact Hp| |].
    + apply lookup_insert_eq.
    + reflexivity.
Qed.

(** Bob's request at time 1200, with the access token of his registration. *)
Lemma middleware_pass_reissues_and_burns_witness :
  exists accessToken p n u,
    Handler.bearer
      (Get (Sample.request Sample.bob_access Sample.bob_refresh) "Authorization")
      = inl accessToken /\
    Service.ValidateToken 1200 Sample.registered accessToken = (p, n, None) /\
    Sample.registered !! p = Some u /\ Count u = n /\
    let access := issue 1200 p n Access (AccessTTL Sample.cfg) in
    let refresh := issue 1200 p n Refresh (RefreshTTL Sample.cfg) in
    snd (Handler.AuthenticateMiddleware Sample.cfg 1200 Sample.registered
           (Sample.request Sample.bob_access Sample.bob_refresh))
      = HeaderAdd "refresh_token" refresh
          (HeaderAdd "access_token" access
             (Sample.request Sample.bob_access Sample.bob_refresh)) /\
    Sample.after_request = <[p := set_refresh refresh true u]> Sample.registered /\
    forall now' c2 presented n',
      Service.ValidateToken now' Sample.after_request presented = (p, n', None) ->
      Handler.ValidateRefreshToken now' Sample.after_request c2 presented =
        (0, Some (NewError 400 "Not Authorized, Token Reuse Detected")).
Proof.
  apply (middleware_pass_reissues_and_burns Sample.cfg 1200 Sample.registered
           Sample.after_request
           (Sample.request Sample.bob_access Sample.bob_refresh)).
  - vm_compute. reflexivity.
  - vm_compute. reflexivity.
Defined.

End MiddlewareFacts.

(** ** Rejections *)

Module RejectionFacts.

Import Codec ServiceFacts HandlerFacts.

(** C6, as stated, fails.  After Bob's request at time 1200 his flag is
    set.  A request presenting his refresh token is rejected with the reuse
    message; a request presenting a refresh token for an id without a
    record is rejected with another message. *)
Lemma rejections_differ :
  ~ (forall e1 e2,
       Client.rejection Sample.cfg 3000 Sample.after_request
         (Sample.request Sample.garbage Sample.bob_refresh) = Some e1 ->
       Client.rejection Sample.cfg 3000 Sample.after_request
         (Sample.request Sample.garbage Sample.ann_refresh) = Some e2 ->
       e1 = e2).
Proof.
  intros H.
  assert (H1 : Client.rejection Sample.cfg 3000 Sample.after_request
                 (Sample.request Sample.garbage Sample.bob_refresh)
               = Some (NewError 400 "Not Authorized, Token Reuse Detected"))
    by (vm_compute; reflexivity).
  assert (H2 : Client.rejection Sample.cfg 3000 Sample.after_request
                 (Sample.request Sample.garbage Sample.ann_refresh)
               = Some (NewError 400
                   "Not Authorized: Access and Refresh Tokens are Expired Unauthorized"))
    by (vm_compute; reflexivity).
  specialize (H _ _ H1 H2). discriminate H.
Qed.

Lemma bearer_error (header : string) (e : error) :
  Handler.bearer header = inr e ->
  exists message,
    e = NewError 400 message /\ message <> "Not Authorized, Token Reuse Detected".
Proof.
  unfold Handler.bearer.
  destruct (String.length header =? 0)%nat.
  - intros [= <-]. eexists. split; [reflexivity | discriminate].
  - destruct (Str.Split " "%char header) as [|tokenType [|accessToken [|x l]]];
      try (intros [= <-]; eexists; split; [reflexivity | discriminate]).
    destruct (negb (String.eqb tokenType "Bearer")); [|discriminate].
    intros [= <-]. eexists. split; [reflexivity | discriminate].
Qed.

(** C6, amended.  Every rejection by the middleware is an error of status
    400, and its message tells the failed check apart: the reuse message is
    returned exactly when the access token fails validation and the
    presented refresh token validates for a principal whose used flag is
    set. *)
Theorem middleware_rejections_share_status
    (cfg : Config) (now : Z) (users : Users) (c : Ctx) (e : error) :
  Client.rejection cfg now users c = Some e ->
  exists message,
    e = NewError 400 message /\
    (message = "Not Authorized, Token Reuse Detected" <->
     exists accessToken e0 user_id count u,
       Handler.bearer (Get c "Authorization") = inl accessToken /\
       snd (Service.ValidateToken now users accessToken) = Some e0 /\
       Service.ValidateToken now users (Get c "refresh_token")
         = (user_id, count, None) /\
       users !! user_id = Some u /\ TokenUsed u = true).
Proof.
  unfold Client.rejection, Handler.AuthenticateMiddleware.
  destruct (Handler.bearer (Get c "Authorization")) as [accessToken|eb] eqn:Hb.
  - destruct (Service.ValidateToken now users accessToken) as [[uid0 count0] [e0|]]
      eqn:Hv; [|rewrite (access_path _ _ _ _ _ _ _ _ Hv); discriminate].
    rewrite (refresh_path _ _ _ _ _ _ e0) by now rewrite Hv.
    unfold Handler.ValidateRefreshToken.
    destruct (Service.ValidateToken now users (Get c "refresh_token"))
      as [[user_id count] [er|]] eqn:Hr.
    + intros [= <-]. eexists. split; [reflexivity|]. split; [discriminate|].
      intros (a & e1 & i & n & u & _ & _ & [=] & _).
    + unfold Service.CheckIfTokenUsed.
      destruct (users !! user_id) as [u|] eqn:Hu.
      * destruct (TokenUsed u) eqn:Hused.
        -- intros [= <-]. eexists. split; [reflexivity|]. split; [|reflexivity].
           intros _. exists accessToken, e0, user_id, count, u.
           rewrite Hv. auto.
        -- rewrite generate_and_use_eq.
           destruct (users !! "") as [u0|]; [discriminate|].
           intros [= <-]. eexists. split; [reflexivity|]. split; [discriminate|].
           intros (a & e1 & i & n & u' & _ & _ & [= <- <-] & Hu' & Hused').
           congruence.
      * intros [= <-]. eexists. split; [reflexivity|]. split; [discriminate|].
        intros (a & e1 & i & n & u & _ & _ & [= <- <-] & Hu' & _). congruence.
  - intros [= <-]. destruct (bearer_error _ _ Hb) as (m & -> & Hm).
    exists m. split; [reflexivity|]. split; [contradiction|].
    intros (a & e1 & i & n & u & [=] & _).
Qed.

(** The rejection of a reused refresh token, after Bob's request. *)
Lemma middleware_rejections_share_status_witness :
  exists message,
    NewError 400 "Not Authorized, Token Reuse Detected" = NewError 400 message /\
    (message = "Not Authorized, Token Reuse Detected" <->
     exists accessToken e0 user_id count u,
       Handler.bearer
         (Get (Sample.request Sample.garbage Sample.bob_refresh) "Authorization")
         = inl accessToken /\
       snd (Service.ValidateToken 3000 Sample.after_request accessToken) = Some e0 /\
       Service.ValidateToken 3000 Sample.after_request
         (Get (Sample.request Sample.garbage Sample.bob_refresh) "refresh_token")
         = (user_id, count, None) /\
       Sample.after_request !! user_id = Some u /\ TokenUsed u = true).
Proof.
  apply (middleware_rejections_share_status Sample.cfg 3000 Sample.after_request
           (Sample.request Sample.garbage Sample.bob_refresh)).
  vm_compute. reflexivity.
Defined.

End RejectionFacts.

(** ** Rotation *)

Module RotationFacts.

Import Codec ServiceFacts HandlerFacts.





(** C2.  In a store with no record under the empty id, a rotation whose
    refresh token verifies at its principal's epoch and whose principal's
    flag is clear returns an error and no pair, and the error is not the
    reuse error; so it is when the presented token differs from the one the
    record stores.  The refusal is [UseToken]'s, of the empty user id: the
    stored token is not compared, and a token equal to it is refused the
    same way. *)
Theorem unredeemed_refresh_token_refused
    (cfg : Config) (now : Z) (users : Users) (c : Ctx)
    (accessToken refreshToken : string) (e0 : error)
    (user_id : string) (count : Z) (u : User) :
  users !! "" = None ->
  snd (Service.ValidateToken now users accessToken) = Some e0 ->
  Service.ValidateToken now users refreshToken = (user_id, count, None) ->
  users !! user_id = Some u ->
  TokenUsed u = false ->
  Handler.ValidateAndGenerateTokens cfg now users c accessToken refreshToken =
    ("", "", Some (NewError 400 "Not Authorized, Error Updating Token Usage"),
     users) /\
  NewError 400 "Not Authorized, Error Updating Token Usage"
    <> NewError 400 "Not Authorized, Token Reuse Detected".
Proof.
  intros Hempty Ha Hr Hu Hused. split; [|discriminate].
  rewrite (refresh_path _ _ _ _ _ _ _ Ha).
  rewrite (refresh_accepted _ _ c _ _ _ _ Hr Hu Hused).
  exact (generate_and_use_unknown _ _ _ _ _ Hempty).
Qed.

(** After Bob's second login the store holds the refresh token of that
    login; the refresh token of his registration, which differs from it
    and still verifies, is presented at time 2000. *)
Lemma unredeemed_refresh_token_refused_witness :
  RefreshToken <$> Sample.relogged !! Sample.bob_id
    = Some (issue 1500 Sample.bob_id 0 Refresh (RefreshTTL Sample.cfg)) /\
  issue 1500 Sample.bob_id 0 Refresh (RefreshTTL Sample.cfg) <> Sample.bob_refresh /\
  Handler.ValidateAndGenerateTokens Sample.cfg 2000 Sample.relogged
    (Sample.request Sample.garbage Sample.bob_refresh)
    Sample.garbage Sample.bob_refresh =
    ("", "", Some (NewError 400 "Not Authorized, Error Updating Token Usage"),
     Sample.relogged) /\
  NewError 400 "Not Authorized, Error Updating Token Usage"
    <> NewError 400 "Not Authorized, Token Reuse Detected".
Proof.
  split; [vm_compute; reflexivity|].
  split; [vm_compute; discriminate|].
  apply (unredeemed_refresh_token_refused Sample.cfg 2000 Sample.relogged
           (Sample.request Sample.garbage Sample.bob_refresh)
           Sample.garbage Sample.bob_refresh
           (ServiceError InvalidSignature) Sample.bob_id 0
           (set_refresh (issue 1500 Sample.bob_id 0 Refresh 2592000) false
              (Handler.new_user
                 (mkRegisterRequest "bob@example.org" "correct horse")
                 Sample.bob_id Sample.bob_refresh)));
    vm_compute; reflexivity.
Defined.



(** C4, on the failing input.  A request passing on Bob's access token
    returns a new pair and leaves his record holding the new refresh token
    with the used flag set, not clear. *)
Theorem middleware_issuance_leaves_record :
  exists access refresh,
    Handler.ValidateAndGenerateTokens Sample.cfg 1200 Sample.registered
      (Sample.request Sample.bob_access Sample.bob_refresh)
      Sample.bob_access Sample.bob_refresh
    = (access, refresh, None, Sample.after_request) /\
    RefreshToken <$> Sample.after_request !! Sample.bob_id = Some refresh /\
    TokenUsed <$> Sample.after_request !! Sample.bob_id = Some true.
Proof.
  eexists _, _. split; [vm_compute; reflexivity|].
  split; vm_compute; reflexivity.
Qed.

End RotationFacts.

(** ** Registration *)

Module RegisterFacts.

Import Codec ServiceFacts.

Section Accounts.

Variable is_email : string -> bool.
Variable UserValidate : User -> option error.

Lemma unknown_principal_refused (now now' : Z) (users : Users) (sub : string)
    (e : Z) (k : TokenClass) (ttl : Z) :
  users !! sub = None ->
  now' <= now + ttl ->
  Service.ValidateToken now' users (issue now sub e k ttl)
  = ("", 0, Some (ServiceError Unauthorized)).
Proof.
  intros Hnone Hexp. unfold Service.ValidateToken.
  rewrite CodecFacts.verify_issue by exact Hexp.
  cbn [subject]. now rewrite Hnone.
Qed.

(** C8, amended.  A registration that fails at [user.Validate()] or at
    [CreateUser], the two failures answered with [xerr.BadRequest], has by
    then added the [access_token] and [refresh_token] headers: the response
    has status 400 and carries the pair issued for the new id at epoch 0.
    Both tokens verify under the codec until they expire; but the new id,
    which had no record, still has none, the store is as it was, and
    [ValidateToken] refuses both tokens as Unauthorized: the pair is not
    usable. *)
Theorem failed_registration_carries_pair
    (cfg : Config) (now : Z) (id : ObjectID) (users users' : Users)
    (c c' : Ctx) (err : option error) (e : error) :
  Handler.Register is_email UserValidate cfg now id users c = (err, users', c') ->
  ResponseBody c' = BadRequest e ->
  users !! Hex id = None ->
  let access := issue now (Hex id) 0 Access (AccessTTL cfg) in
  let refresh := issue now (Hex id) 0 Refresh (RefreshTTL cfg) in
  err = None /\
  ResponseStatus c' = 400 /\
  ResponseHeader c' =
    (ResponseHeader c ++ [("access_token", access); ("refresh_token", refresh)])%list /\
  (forall now', now' <= now + AccessTTL cfg ->
     verify now' access = inl (mkClaims (Hex id) 0 Access (now + AccessTTL cfg)) /\
     Service.ValidateToken now' users' access
     = ("", 0, Some (ServiceError Unauthorized))) /\
  (forall now', now' <= now + RefreshTTL cfg ->
     verify now' refresh = inl (mkClaims (Hex id) 0 Refresh (now + RefreshTTL cfg)) /\
     Service.ValidateToken now' users' refresh
     = ("", 0, Some (ServiceError Unauthorized))) /\
  users' = users /\
  users' !! Hex id = None.
Proof.
  intros HR Hbody Hfresh access refresh.
  assert (Hva : forall now', now' <= now + AccessTTL cfg ->
    verify now' access = inl (mkClaims (Hex id) 0 Access (now + AccessTTL cfg)) /\
    Service.ValidateToken now' users access
    = ("", 0, Some (ServiceError Unauthorized))).
  { intros now' H. split; [now apply CodecFacts.verify_issue|].
    now apply unknown_principal_refused. }
  assert (Hvr : forall now', now' <= now + RefreshTTL cfg ->
    verify now' refresh = inl (mkClaims (Hex id) 0 Refresh (now + RefreshTTL cfg)) /\
    Service.ValidateToken now' users refresh
    = ("", 0, Some (ServiceError Unauthorized))).
  { intros now' H. split; [now apply CodecFacts.verify_issue|].
    now apply unknown_principal_refused. }
  unfold Handler.Register in HR.
  destruct (RequestBody c) as [[email password]|].
  2:{ injection HR as <- <- <-. discriminate Hbody. }
  destruct (0 <? length _)%nat.
  { injection HR as <- <- <-. discriminate Hbody. }
  unfold Service.GenerateTokens in HR.
  rewrite (alter_absent _ _ _ Hfresh) in HR.
  destruct (UserValidate _).
  { injection HR as <- <- <-.
    split; [reflexivity|]. split; [reflexivity|].
    split; [cbn; now rewrite <- app_assoc|].
    split; [exact Hva|]. split; [exact Hvr|]. split; [reflexivity | exact Hfresh]. }
  unfold Service.CreateUser in HR. cbn [ID Handler.new_user] in HR.
  rewrite Hfresh in HR.
  injection HR as <- <- <-. discriminate Hbody.
Qed.

(** C9.  The record a successful registration creates has its counter at
    0 and its used flag clear, and the refresh token it stores is the one
    the response carries in its [refresh_token] header. *)
Theorem registration_record
    (cfg : Config) (now : Z) (id : ObjectID) (users users' : Users)
    (c c' : Ctx) (err : option error) :
  Handler.Register is_email UserValidate cfg now id users c = (err, users', c') ->
  ResponseBody c' = Message "User Created Successfully" ->
  exists u,
    users' !! Hex id = Some u /\
    Count u = 0 /\
    TokenUsed u = false /\
    ResponseHeader c' =
      (ResponseHeader c ++
        [("access_token", issue now (Hex id) 0 Access (AccessTTL cfg));
         ("refresh_token", RefreshToken u)])%list.
Proof.
  intros HR Hbody.
  unfold Handler.Register in HR.
  destruct (RequestBody c) as [[email password]|].
  2:{ injection HR as <- <- <-. discriminate Hbody. }
  destruct (0 <? length _)%nat.
  { injection HR as <- <- <-. discriminate Hbody. }
  unfold Service.GenerateTokens in HR.
  destruct (UserValidate _).
  { injection HR as <- <- <-. discriminate Hbody. }
  unfold Service.CreateUser in HR. cbn [ID Handler.new_user] in HR.
  destruct (alter _ (Hex id) users !! Hex id).
  { injection HR as <- <- <-. discriminate Hbody. }
  injection HR as <- <- <-.
  eexists. split; [apply lookup_insert_eq|].
  repeat split. cbn. now rewrite <- app_assoc.
Qed.

(** A login that finds the credentials issues a pair at the record's
    counter and stores its refresh token with the used flag clear. *)
Lemma login_stores_pair
    (cfg : Config) (now : Z) (users : Users) (c : Ctx)
    (email password : string) (id : ObjectID) (count : Z) :
  RequestBody c = Some (email, password) ->
  Handler.validate_fields is_email email password = [] ->
  Service.LoginFromCredentials users email password = (id, count, None) ->
  let access := issue now (Hex id) count Access (AccessTTL cfg) in
  let refresh := issue now (Hex id) count Refresh (RefreshTTL cfg) in
  Handler.Login is_email cfg now users c =
    (None,
     alter (set_refresh refresh false) (Hex id) users,
     HeaderAdd "refresh_token" refresh (HeaderAdd "access_token" access c)).
Proof.
  intros Hbody Hvalid Hlogin. unfold Handler.Login.
  rewrite Hbody. cbn [login_Email login_Password].
  now rewrite Hvalid, Hlogin.
Qed.

End Accounts.

(** C8, as stated, fails.  Ann registers at time 1000 and
    [user.Validate()] refuses her record.  The response carries a pair, and
    a request presenting that pair at once is rejected by the middleware:
    the pair is not usable. *)
Lemma failed_registration_pair_refused :
  ~ (forall err users' c' e access refresh,
       Handler.Register Sample.no_email_check Sample.reject_user Sample.cfg 1000
         Sample.ann_id Sample.registered
         (Sample.credentials "ann@example.org" "hunter2hunter2")
       = (err, users', c') ->
       ResponseBody c' = BadRequest e ->
       assoc "access_token" (ResponseHeader c') = Some access ->
       assoc "refresh_token" (ResponseHeader c') = Some refresh ->
       exists users'' c'',
         Handler.AuthenticateMiddleware Sample.cfg 1000 users'
           (Sample.request access refresh)
         = (Next, users'', c'')).
Proof.
  intros H.
  destruct (H None Sample.registered
              (snd (Handler.Register Sample.no_email_check Sample.reject_user
                      Sample.cfg 1000 Sample.ann_id Sample.registered
                      (Sample.credentials "ann@example.org" "hunter2hunter2")))
              (ServiceError Conflict)
              (issue 1000 Sample.ann_id 0 Access (AccessTTL Sample.cfg))
              (issue 1000 Sample.ann_id 0 Refresh (RefreshTTL Sample.cfg)))
    as (users'' & c'' & E); try (vm_compute; reflexivity).
  vm_compute in E. discriminate E.
Qed.

(** Ann registers at time 1000 and [user.Validate()] refuses her record. *)
Lemma failed_registration_carries_pair_witness :
  let c := Sample.credentials "ann@example.org" "hunter2hunter2" in
  let out := Handler.Register Sample.no_email_check Sample.reject_user
               Sample.cfg 1000 Sample.ann_id Sample.registered c in
  let access := issue 1000 (Hex Sample.ann_id) 0 Access (AccessTTL Sample.cfg) in
  let refresh := issue 1000 (Hex Sample.ann_id) 0 Refresh (RefreshTTL Sample.cfg) in
  fst (fst out) = None /\
  ResponseStatus (snd out) = 400 /\
  ResponseHeader (snd out) =
    (ResponseHeader c ++ [("access_token", access); ("refresh_token", refresh)])%list /\
  (forall now', now' <= 1000 + AccessTTL Sample.cfg ->
     verify now' access
     = inl (mkClaims (Hex Sample.ann_id) 0 Access (1000 + AccessTTL Sample.cfg)) /\
     Service.ValidateToken now' (snd (fst out)) access
     = ("", 0, Some (ServiceError Unauthorized))) /\
  (forall now', now' <= 1000 + RefreshTTL Sample.cfg ->
     verify now' refresh
     = inl (mkClaims (Hex Sample.ann_id) 0 Refresh (1000 + RefreshTTL Sample.cfg)) /\
     Service.ValidateToken now' (snd (fst out)) refresh
     = ("", 0, Some (ServiceError Unauthorized))) /\
  snd (fst out) = Sample.registered /\
  snd (fst out) !! Hex Sample.ann_id = None.
Proof.
  apply (failed_registration_carries_pair Sample.no_email_check Sample.reject_user
           Sample.cfg 1000 Sample.ann_id Sample.registered _
           (Sample.credentials "ann@example.org" "hunter2hunter2") _ _
           (ServiceError Conflict)).
  - vm_compute. reflexivity.
  - vm_compute. reflexivity.
  - vm_compute. reflexivity.
Defined.

(** Bob's registration at time 1000. *)
Lemma registration_record_witness :
  exists u,
    Sample.registered !! Hex Sample.bob_id = Some u /\
    Count u = 0 /\
    TokenUsed u = false /\
    ResponseHeader
      (snd (Handler.Register Sample.no_email_check Sample.accept_user Sample.cfg
              1000 Sample.bob_id ∅
              (Sample.credentials "bob@example.org" "correct horse"))) =
      (ResponseHeader (Sample.credentials "bob@example.org" "correct horse") ++
        [("access_token", issue 1000 (Hex Sample.bob_id) 0 Access (AccessTTL Sample.cfg));
         ("refresh_token", RefreshToken u)])%list.
Proof.
  apply (registration_record Sample.no_email_check Sample.accept_user
           Sample.cfg 1000 Sample.bob_id ∅ Sample.registered
           (Sample.credentials "bob@example.org" "correct horse") _ None).
  - vm_compute. reflexivity.
  - vm_compute. reflexivity.
Defined.

End RegisterFacts.

(** ** Concurrent rotations *)

Module InterleavingFacts.

Import Codec Interleaving.

(** Runs the innermost pending service call of the goal. *)
Ltac run1 :=
  cbn [fst snd];
  match goal with
  | |- context [step ?c ?n ?u (mkCall ?a ?r ?p)] =>
      let t := eval cbv beta iota zeta delta
                 [step pc accessToken refreshToken Service.GenerateTokens]
               in (step c n u (mkCall a r p)) in
      change (step c n u (mkCall a r p)) with t
  | |- context [Service.UseToken ?u ?i] =>
      destruct (Service.UseToken u i) as [[?|] ?]
  end.

(** A call that runs with no other call in between does what the handler
    does: the steps are the handler's service calls, in its order. *)
Lemma alone_is_handler (cfg : Config) (now : Z) (users : Users) (c : Ctx)
    (access refresh : string) :
  alone cfg now users (mkCall access refresh AtValidateAccess) =
    let '(a, r, err, users') :=
      Handler.ValidateAndGenerateTokens cfg now users c access refresh in
    (users', mkCall access refresh (Returned a r err)).
Proof.
  unfold alone, Handler.ValidateAndGenerateTokens, Handler.ValidateRefreshToken,
    Handler.generate_and_use, Service.GenerateTokens.
  cbv beta iota delta [Nat.iter nat_rect]. run1.
  destruct (Service.ValidateToken now users access) as [[uid0 count0] [e0|]].
  - run1.
    destruct (Service.ValidateToken now users refresh) as [[uid count] [e|]].
    + now repeat run1.
    + run1. destruct (Service.CheckIfTokenUsed users uid) as [[|] [e|]];
        now repeat run1.
  - now repeat run1.
Qed.

(** C10, on the failing input.  Bob's refresh token is valid and unused.
    One request that presents it with an access token that does not
    verify, run alone, is refused; and of two such requests whose service
    calls alternate, neither returns a pair: both end in the error of
    [UseToken].  No call succeeds. *)
Theorem concurrent_rotations_none_succeeds :
  alone Sample.cfg 2000 Sample.registered
    (mkCall Sample.garbage Sample.bob_refresh AtValidateAccess)
  = (Sample.registered,
     mkCall Sample.garbage Sample.bob_refresh
       (Returned "" ""
          (Some (NewError 400 "Not Authorized, Error Updating Token Usage"))))
  /\
  run Sample.cfg 2000 [0; 1; 0; 1; 0; 1; 0; 1; 0; 1]%nat Sample.registered
    [mkCall Sample.garbage Sample.bob_refresh AtValidateAccess;
     mkCall Sample.garbage Sample.bob_refresh AtValidateAccess]
  = (Sample.registered,
     [mkCall Sample.garbage Sample.bob_refresh
        (Returned "" ""
           (Some (NewError 400 "Not Authorized, Error Updating Token Usage")));
      mkCall Sample.garbage Sample.bob_refresh
        (Returned "" ""
           (Some (NewError 400 "Not Authorized, Error Updating Token Usage")))])
  /\
  List.filter succeeded
    (snd (run Sample.cfg 2000 [0; 1; 0; 1; 0; 1; 0; 1; 0; 1]%nat Sample.registered
       [mkCall Sample.garbage Sample.bob_refresh AtValidateAccess;
        mkCall Sample.garbage Sample.bob_refresh AtValidateAccess]))
  = [].
Proof. repeat split; vm_compute; reflexivity. Qed.

End InterleavingFacts.

(** ** The Authorization header *)

Module HeaderFacts.

Lemma lacks_app (sep : ascii) (a b : string) :
  Str.lacks sep (a +:+ b) = Str.lacks sep a && Str.lacks sep b.
Proof.
  induction a as [|x a IH]; simpl; [reflexivity|].
  now rewrite IH, andb_assoc.
Qed.

(** The first piece of a split has no separator; it is the whole string
    when it is the only piece, and is followed by the separator and the
    text the other pieces are split from otherwise. *)
Lemma Split_head (sep : ascii) (s : string) :
  exists p ps,
    Str.Split sep s = p :: ps /\
    Str.lacks sep p = true /\
    (ps = [] -> s = p) /\
    (ps <> [] -> exists rest, s = p +:+ String sep rest /\ Str.Split sep rest = ps).
Proof.
  induction s as [|a s IH]; simpl.
  - exists "", []. repeat split; auto. congruence.
  - destruct IH as (p & ps & E & Hp & H1 & H2).
    destruct (Ascii.eqb_spec a sep) as [->|Hne].
    + exists "", (Str.Split sep s). rewrite E. repeat split; auto.
      * discriminate.
      * intros _. exists s. rewrite E. auto.
    + rewrite E. exists (String a p), ps. repeat split.
      * simpl. rewrite Hp. now apply Ascii.eqb_neq in Hne as ->.
      * intros Hps. now rewrite (H1 Hps).
      * intros Hps. destruct (H2 Hps) as (rest & -> & Hr).
        exists rest. auto.
Qed.

Lemma Split_lacks (sep : ascii) (s : string) :
  Str.lacks sep s = true -> Str.Split sep s = [s].
Proof.
  induction s as [|a s IH]; simpl; [reflexivity|].
  intros H. apply andb_prop in H as [Ha Hs].
  apply negb_true_iff in Ha. now rewrite Ha, (IH Hs).
Qed.

Lemma Split_app (sep : ascii) (a b : string) :
  Str.lacks sep a = true ->
  Str.Split sep (a +:+ String sep b) = a :: Str.Split sep b.
Proof.
  induction a as [|x a IH]; simpl.
  - intros _. now rewrite Ascii.eqb_refl.
  - intros H. apply andb_prop in H as [Hx Ha].
    apply negb_true_iff in Hx. now rewrite Hx, (IH Ha).
Qed.

(** A string splits in two exactly around its only separator. *)
Lemma Split_two (sep : ascii) (s a b : string) :
  Str.Split sep s = [a; b] ->
  s = a +:+ String sep b /\ Str.lacks sep a = true /\ Str.lacks sep b = true.
Proof.
  intros E.
  destruct (Split_head sep s) as (p & ps & E' & Hp & _ & H2).
  rewrite E in E'. injection E' as <- <-.
  destruct H2 as (rest & -> & Hr); [discriminate|].
  destruct (Split_head sep rest) as (q & qs & Eq & Hq & H1 & _).
  rewrite Hr in Eq. injection Eq as <- <-.
  rewrite (H1 eq_refl). auto.
Qed.

Lemma bearer_inv (header tok : string) :
  Handler.bearer header = inl tok ->
  header = "Bearer " +:+ tok /\ Str.lacks " "%char tok = true.
Proof.
  unfold Handler.bearer.
  destruct (String.length header =? 0)%nat; [discriminate|].
  destruct (Str.Split " "%char header) as [|t [|a [|x l]]] eqn:E; try discriminate.
  destruct (String.eqb_spec t "Bearer") as [->|]; [|discriminate].
  intros [= <-]. destruct (Split_two _ _ _ _ E) as (-> & _ & Ha). auto.
Qed.

Lemma bearer_ok (tok : string) :
  Str.lacks " "%char tok = true ->
  Handler.bearer ("Bearer " +:+ tok) = inl tok.
Proof.
  intros H. unfold Handler.bearer.
  change ("Bearer " +:+ tok) with ("Bearer" +:+ String " "%char tok).
  rewrite Split_app by reflexivity. rewrite (Split_lacks _ _ H).
  reflexivity.
Qed.

(** X1.  The header check of [AuthenticateMiddleware] and [Logout] lets a
    header through exactly when it is [Bearer], one space, and a token
    without a space; the token may be empty. *)
Theorem bearer_accepts_iff (header tok : string) :
  Handler.bearer header = inl tok <->
  header = "Bearer " +:+ tok /\ Str.lacks " "%char tok = true.
Proof.
  split.
  - apply bearer_inv.
  - intros [-> H]. now apply bearer_ok.
Qed.

End HeaderFacts.

(** ** Who passes the middleware, and what a request may change *)

Module GateFacts.

Import Codec ServiceFacts HandlerFacts HeaderFacts.

(** X2.  [ValidateRefreshToken] accepts a token exactly when
    [ValidateToken] accepts it and the record of its subject has the used
    flag clear, and then returns the epoch of the token; every refusal
    returns the count 0 with an error of status 400. *)
Theorem refresh_token_accepted_iff (now : Z) (users : Users) (c : Ctx)
    (token : string) :
  (forall n,
     Handler.ValidateRefreshToken now users c token = (n, None) <->
     exists p u,
       Service.ValidateToken now users token = (p, n, None) /\
       users !! p = Some u /\ TokenUsed u = false) /\
  (forall n e,
     Handler.ValidateRefreshToken now users c token = (n, Some e) ->
     n = 0 /\ exists message, e = NewError 400 message).
Proof.
  split.
  - intros n. split.
    + apply refresh_accepted_inv.
    + intros (p & u & Hv & Hu & Hused). eapply refresh_accepted; eauto.
  - apply refresh_refused.
Qed.

(** The outcomes of [ValidateAndGenerateTokens], by what validating the
    two tokens gives. *)
Lemma tokens_cases (cfg : Config) (now : Z) (users : Users) (c : Ctx)
    (accessToken refreshToken : string) :
  Handler.ValidateAndGenerateTokens cfg now users c accessToken refreshToken =
    match Service.ValidateToken now users accessToken with
    | (p, n, None) =>
        (issue now p n Access (AccessTTL cfg),
         issue now p n Refresh (RefreshTTL cfg), None,
         alter (set_refresh (issue now p n Refresh (RefreshTTL cfg)) true) p users)
    | (_, _, Some _) =>
        match Handler.ValidateRefreshToken now users c refreshToken with
        | (_, Some e) => ("", "", Some e, users)
        | (n, None) => Handler.generate_and_use cfg now users "" n
        end
    end.
Proof.
  destruct (Service.ValidateToken now users accessToken) as [[p n] [e|]] eqn:Hv.
  - apply (refresh_path _ _ _ _ _ _ e). now rewrite Hv.
  - now apply access_path.
Qed.

(** The store the middleware leaves: the one it found, or that one with
    the refresh token and flag of one record rewritten. *)
Lemma middleware_store (cfg : Config) (now : Z) (users users' : Users)
    (c c' : Ctx) (fl : Flow) :
  Handler.AuthenticateMiddleware cfg now users c = (fl, users', c') ->
  users' = users \/
  exists id tok, fl = Next /\ users' = alter (set_refresh tok true) id users.
Proof.
  unfold Handler.AuthenticateMiddleware.
  destruct (Handler.bearer (Get c "Authorization")) as [accessToken|e].
  - rewrite tokens_cases.
    destruct (Service.ValidateToken now users accessToken) as [[p n] [e|]].
    + destruct (Handler.ValidateRefreshToken now users c (Get c "refresh_token"))
        as [n' [e'|]].
      * intros [= <- <- <-]; eauto.
      * rewrite generate_and_use_eq.
        destruct (users !! "") as [u|]; intros [= <- <- <-]; eauto.
    + intros [= <- <- <-]; eauto.
  - intros [= <- <- <-]. auto.
Qed.

(** X3.  In a store with no record under the empty id, the middleware
    lets a request through exactly when its Authorization header is
    [Bearer], a space and a token without a space, and that token
    validates.  A request whose access token fails validation is rejected
    whatever refresh token it carries; with a valid access token neither
    the refresh token nor the used flag is looked at. *)
Theorem middleware_passes_iff (cfg : Config) (now : Z) (users : Users) (c : Ctx) :
  users !! "" = None ->
  (exists users' c',
     Handler.AuthenticateMiddleware cfg now users c = (Next, users', c')) <->
  exists tok,
    Get c "Authorization" = "Bearer " +:+ tok /\
    Str.lacks " "%char tok = true /\
    snd (Service.ValidateToken now users tok) = None.
Proof.
  intros Hempty. unfold Handler.AuthenticateMiddleware. split.
  - intros (users' & c' & H).
    destruct (Handler.bearer (Get c "Authorization")) as [tok|e] eqn:Hb;
      [|discriminate].
    destruct (bearer_inv _ _ Hb) as [Hh Hl].
    exists tok. split; [exact Hh|]. split; [exact Hl|].
    rewrite tokens_cases in H.
    destruct (Service.ValidateToken now users tok) as [[p n] [e|]];
      [|reflexivity].
    destruct (Handler.ValidateRefreshToken now users c (Get c "refresh_token"))
      as [n' [e'|]]; [discriminate|].
    rewrite (generate_and_use_unknown _ _ _ _ _ Hempty) in H. discriminate.
  - intros (tok & Hh & Hl & Hv).
    rewrite Hh, (bearer_ok _ Hl), tokens_cases.
    destruct (Service.ValidateToken now users tok) as [[p n] [e|]];
      [discriminate|eauto].
Qed.

(** Bob's request at time 1200, with his access token. *)
Lemma middleware_passes_iff_witness :
  (exists users' c',
     Handler.AuthenticateMiddleware Sample.cfg 1200 Sample.registered
       (Sample.request Sample.bob_access Sample.bob_refresh)
     = (Next, users', c')) <->
  exists tok,
    Get (Sample.request Sample.bob_access Sample.bob_refresh) "Authorization"
      = "Bearer " +:+ tok /\
    Str.lacks " "%char tok = true /\
    snd (Service.ValidateToken 1200 Sample.registered tok) = None.
Proof.
  apply (middleware_passes_iff Sample.cfg 1200 Sample.registered
           (Sample.request Sample.bob_access Sample.bob_refresh)).
  vm_compute. reflexivity.
Defined.

(** X4.  A request the middleware rejects gets an error and an untouched
    response: no token header is added. *)
Theorem middleware_rejection_adds_no_header
    (cfg : Config) (now : Z) (users users' : Users) (c c' : Ctx)
    (r : option error) :
  Handler.AuthenticateMiddleware cfg now users c = (Return r, users', c') ->
  c' = c /\ exists e, r = Some e.
Proof.
  unfold Handler.AuthenticateMiddleware.
  destruct (Handler.bearer (Get c "Authorization")) as [accessToken|e].
  - destruct (Handler.ValidateAndGenerateTokens cfg now users c accessToken
                (Get c "refresh_token")) as [[[a r0] [e|]] users0].
    + intros [= <- <- <-]. eauto.
    + discriminate.
  - intros [= <- <- <-]. eauto.
Qed.

(** Bob's refresh token, presented after his flag was set. *)
Lemma middleware_rejection_adds_no_header_witness :
  snd (Handler.AuthenticateMiddleware Sample.cfg 3000 Sample.after_request
         (Sample.request Sample.garbage Sample.bob_refresh))
    = Sample.request Sample.garbage Sample.bob_refresh /\
  exists e, Some (NewError 400 "Not Authorized, Token Reuse Detected") = Some e.
Proof.
  apply (middleware_rejection_adds_no_header Sample.cfg 3000 Sample.after_request
           (snd (fst (Handler.AuthenticateMiddleware Sample.cfg 3000
                        Sample.after_request
                        (Sample.request Sample.garbage Sample.bob_refresh))))
           (Sample.request Sample.garbage Sample.bob_refresh) _
           (Some (NewError 400 "Not Authorized, Token Reuse Detected"))).
  vm_compute. reflexivity.
Defined.

(** X5.  Whatever the middleware answers, it neither adds nor removes a
    record, it touches at most one record, and of a record it changes
    nothing but the stored refresh token and the used flag. *)
Theorem middleware_frame
    (cfg : Config) (now : Z) (users users' : Users) (c c' : Ctx) (fl : Flow) :
  Handler.AuthenticateMiddleware cfg now users c = (fl, users', c') ->
  (exists id, forall k, k <> id -> users' !! k = users !! k) /\
  (forall k, users' !! k = None <-> users !! k = None) /\
  (forall k u u',
     users !! k = Some u -> users' !! k = Some u' ->
     u' = set_refresh (RefreshToken u') (TokenUsed u') u).
Proof.
  intros H.
  destruct (middleware_store _ _ _ _ _ _ _ H) as [->|(id & tok & _ & ->)].
  - split; [exists ""; auto|]. split; [tauto|].
    intros k u u' Hu Hu'. rewrite Hu in Hu'. injection Hu' as <-. now destruct u.
  - split; [exists id; intros k Hk; now apply lookup_alter_ne|].
    split; [intros k; apply lookup_alter_None|].
    intros k u u' Hu. rewrite lookup_alter. case_decide.
    + subst k. rewrite Hu. intros [= <-]. reflexivity.
    + rewrite Hu. intros [= <-]. now destruct u.
Qed.

(** Bob's request at time 1200. *)
Lemma middleware_frame_witness :
  (exists id, forall k, k <> id -> Sample.after_request !! k = Sample.registered !! k) /\
  (forall k, Sample.after_request !! k = None <-> Sample.registered !! k = None) /\
  (forall k u u',
     Sample.registered !! k = Some u -> Sample.after_request !! k = Some u' ->
     u' = set_refresh (RefreshToken u') (TokenUsed u') u).
Proof.
  apply (middleware_frame Sample.cfg 1200 Sample.registered Sample.after_request
           (Sample.request Sample.bob_access Sample.bob_refresh)
           (snd (Handler.AuthenticateMiddleware Sample.cfg 1200 Sample.registered
                   (Sample.request Sample.bob_access Sample.bob_refresh)))
           Next).
  vm_compute. reflexivity.
Defined.

End GateFacts.

(** ** Logout, once and again *)

Module LogoutAgainFacts.

Import Codec ServiceFacts HeaderFacts.

Lemma verify_inl (now : Z) (token : string) (cl : Claims) :
  verify now token = inl cl -> decode token = Some cl /\ now <= expiry cl.
Proof.
  unfold verify. destruct (decode token) as [c0|]; [|discriminate].
  destruct (Z.ltb_spec (expiry c0) now); [discriminate|].
  intros [= <-]. auto.
Qed.

(** X6.  [Logout] either returns an error and changes nothing, or it
    returns nil for a well-formed header whose access token validates, and
    then the record of the token's subject has its counter advanced by one,
    every other record and every other field is as it was, and the
    response is the text [Logout Successful] with no header added.  The
    refresh token takes no part. *)
Theorem logout_outcome
    (now : Z) (users users' : Users) (c c' : Ctx) (r : option error) :
  Handler.Logout now users c = (r, users', c') ->
  (exists e, r = Some e /\ users' = users /\ c' = c) \/
  (r = None /\
   exists tok p n u,
     Get c "Authorization" = "Bearer " +:+ tok /\
     Service.ValidateToken now users tok = (p, n, None) /\
     users !! p = Some u /\ Count u = n /\
     users' = <[p := set_count (n + 1) u]> users /\
     c' = SendString "Logout Successful" c).
Proof.
  unfold Handler.Logout.
  destruct (Handler.bearer (Get c "Authorization")) as [tok|e] eqn:Hb.
  - destruct (Service.ValidateToken now users tok) as [[p n] [e|]] eqn:Hv.
    + intros [= <- <- <-]. left. eauto.
    + unfold Service.InvalidateTokens. intros [= <- <- <-]. right.
      split; [reflexivity|].
      destruct (ValidateToken_ok _ _ _ _ _ Hv) as (cl & u & _ & _ & _ & Hu & Hc).
      destruct (bearer_inv _ _ Hb) as [Hh _].
      exists tok, p, n, u. rewrite (alter_as_insert _ _ _ _ Hu), Hc. auto 7.
  - intros [= <- <- <-]. left. eauto.
Qed.

(** Bob logs out at time 2000. *)
Lemma logout_outcome_witness :
  (exists e, @None error = Some e /\
     snd (fst (Handler.Logout 2000 Sample.registered
                 (Sample.request Sample.bob_access "")))
       = Sample.registered /\
     snd (Handler.Logout 2000 Sample.registered
            (Sample.request Sample.bob_access ""))
       = Sample.request Sample.bob_access "") \/
  (@None error = None /\
   exists tok p n u,
     Get (Sample.request Sample.bob_access "") "Authorization"
       = "Bearer " +:+ tok /\
     Service.ValidateToken 2000 Sample.registered tok = (p, n, None) /\
     Sample.registered !! p = Some u /\ Count u = n /\
     snd (fst (Handler.Logout 2000 Sample.registered
                 (Sample.request Sample.bob_access "")))
       = <[p := set_count (n + 1) u]> Sample.registered /\
     snd (Handler.Logout 2000 Sample.registered
            (Sample.request Sample.bob_access ""))
       = SendString "Logout Successful" (Sample.request Sample.bob_access "")).
Proof.
  apply (logout_outcome 2000 Sample.registered _
           (Sample.request Sample.bob_access "") _ None).
  vm_compute. reflexivity.
Defined.

(** X7.  A logout cannot be repeated: after a successful [Logout], a
    request with the same Authorization header is refused with the
    service's error, Unauthorized while the token is unexpired and Expired
    afterwards, and changes nothing. *)
Theorem logout_not_repeatable
    (now now2 : Z) (users users' : Users) (c c' c2 : Ctx) :
  Handler.Logout now users c = (None, users', c') ->
  Get c2 "Authorization" = Get c "Authorization" ->
  exists k,
    (k = Unauthorized \/ k = Expired) /\
    Handler.Logout now2 users' c2 = (Some (ServiceError k), users', c2).
Proof.
  intros H Hsame. unfold Handler.Logout in *. rewrite Hsame.
  destruct (Handler.bearer (Get c "Authorization")) as [tok|e]; [|discriminate].
  destruct (Service.ValidateToken now users tok) as [[p n] [e|]] eqn:Hv;
    [discriminate|].
  unfold Service.InvalidateTokens in H. injection H as <- _.
  destruct (ValidateToken_ok _ _ _ _ _ Hv) as (cl & u & Hver & <- & <- & Hu & Hc).
  destruct (verify_inl _ _ _ Hver) as [Hd _].
  assert (Hu' : alter (fun u0 => set_count (Count u0 + 1) u0) (subject cl) users
                  !! subject cl = Some (set_count (Count u + 1) u))
    by now rewrite lookup_alter_eq, Hu.
  rewrite (ValidateToken_decoded now2 _ tok cl _ Hd Hu').
  destruct (expiry cl <? now2); [eauto|].
  cbn [Count set_count].
  destruct (Z.eqb_spec (Count u + 1) (epoch cl)); [lia | eauto].
Qed.

(** Bob logs out at time 2000 and tries again at time 2001. *)
Lemma logout_not_repeatable_witness :
  exists k,
    (k = Unauthorized \/ k = Expired) /\
    Handler.Logout 2001
      (snd (fst (Handler.Logout 2000 Sample.registered
                   (Sample.request Sample.bob_access ""))))
      (Sample.request Sample.bob_access Sample.bob_refresh)
    = (Some (ServiceError k),
       snd (fst (Handler.Logout 2000 Sample.registered
                   (Sample.request Sample.bob_access ""))),
       Sample.request Sample.bob_access Sample.bob_refresh).
Proof.
  apply (logout_not_repeatable 2000 2001 Sample.registered _
           (Sample.request Sample.bob_access "")
           (snd (Handler.Logout 2000 Sample.registered
                   (Sample.request Sample.bob_access "")))).
  - vm_compute. reflexivity.
  - vm_compute. reflexivity.
Defined.

End LogoutAgainFacts.

(** ** Accounts: registration and login *)

Module AccountFacts.

Import Codec ServiceFacts HandlerFacts HeaderFacts GateFacts.

Lemma by_email_Some (users : Users) (email : string) (u : User) :
  Service.by_email users email = Some u ->
  exists k, users !! k = Some u /\ Email u = email.
Proof.
  unfold Service.by_email.
  destruct (List.find _ _) as [[k v]|] eqn:E; [|discriminate].
  intros [= <-]. apply find_some in E as [Hin Heq].
  apply list_elem_of_In, elem_of_map_to_list in Hin.
  apply String.eqb_eq in Heq. eauto.
Qed.

Lemma by_email_None (users : Users) (email : string) (k : string) (u : User) :
  Service.by_email users email = None ->
  users !! k = Some u -> Email u <> email.
Proof.
  unfold Service.by_email.
  destruct (List.find _ _) as [[k' v]|] eqn:E; [discriminate|].
  intros _ Hu Heq.
  assert (Hin : In (k, u) (map_to_list users))
    by now apply list_elem_of_In, elem_of_map_to_list.
  pose proof (find_none _ _ E (k, u) Hin) as Hf. cbn [snd] in Hf.
  apply String.eqb_neq in Hf. contradiction.
Qed.

(** The record stored under a fresh id is the one its email finds, when no
    other record has that email. *)
Lemma by_email_insert (users : Users) (k : string) (u : User) :
  users !! k = None ->
  Service.by_email users (Email u) = None ->
  Service.by_email (<[k := u]> users) (Email u) = Some u.
Proof.
  intros Hk Hnone.
  destruct (Service.by_email (<[k := u]> users) (Email u)) as [v|] eqn:E.
  - destruct (by_email_Some _ _ _ E) as (j & Hj & Hv).
    rewrite lookup_insert in Hj. case_decide.
    + congruence.
    + destruct (by_email_None _ _ _ _ Hnone Hj Hv).
  - destruct (by_email_None _ _ k u E); [apply lookup_insert_eq | reflexivity].
Qed.

Lemma login_inv (users : Users) (email password : string) (id : ObjectID) (n : Z) :
  Service.LoginFromCredentials users email password = (id, n, None) ->
  exists k u,
    users !! k = Some u /\ Email u = email /\ Password u = password /\
    ID u = id /\ Count u = n.
Proof.
  unfold Service.LoginFromCredentials.
  destruct (Service.by_email users email) as [u|] eqn:E; [|discriminate].
  destruct (String.eqb_spec (Password u) password); [|discriminate].
  intros [= <- <-]. destruct (by_email_Some _ _ _ E) as (k & Hk & He).
  eauto 8.
Qed.

Lemma headers_grow (l : list (string * string)) (x y : string * string) :
  (l ++ [x] ++ [y])%list <> l.
Proof.
  intros H. apply (f_equal (@length _)) in H.
  rewrite !length_app in H. simpl in H. lia.
Qed.

Section Accounts.

Variable is_email : string -> bool.
Variable UserValidate : User -> option error.

Lemma validate_fields_nil (email password : string) :
  Handler.validate_fields is_email email password = [] <->
  email <> "" /\ is_email email = true /\
  (8 <= Str.RuneCountInString password)%nat.
Proof.
  unfold Handler.validate_fields.
  destruct (String.eqb_spec email "") as [->|He].
  { split; [discriminate | intros [[] _]; reflexivity]. }
  destruct (is_email email).
  2:{ split; [discriminate | intros (_ & [=] & _)]. }
  destruct (String.eqb_spec password "") as [->|Hp].
  { split; [discriminate | intros (_ & _ & H)].
    change (Str.RuneCountInString "") with 0%nat in H. lia. }
  destruct (Nat.ltb_spec (Str.RuneCountInString password) 8) as [Hlt|Hge].
  - split; [discriminate | intros (_ & _ & H); lia].
  - split; auto.
Qed.

Lemma no_errors (errs : list (string * string)) :
  (0 <? length errs)%nat = false -> errs = [].
Proof. destruct errs; [reflexivity | discriminate]. Qed.

(** A registration that ends with the success message: what was checked
    and what was stored. *)
Lemma register_success_inv
    (cfg : Config) (now : Z) (id : ObjectID) (users users' : Users)
    (c c' : Ctx) (err : option error) :
  Handler.Register is_email UserValidate cfg now id users c = (err, users', c') ->
  ResponseBody c' = Message "User Created Successfully" ->
  exists email password,
    RequestBody c = Some (email, password) /\
    Handler.validate_fields is_email email password = [] /\
    users !! Hex id = None /\
    users' = <[Hex id :=
                 Handler.new_user (mkRegisterRequest email password) id
                   (issue now (Hex id) 0 Refresh (RefreshTTL cfg))]> users.
Proof.
  intros HR Hbody. unfold Handler.Register in HR.
  destruct (RequestBody c) as [[email password]|].
  2:{ injection HR as <- <- <-. discriminate Hbody. }
  destruct (0 <? length _)%nat eqn:Hv.
  { injection HR as <- <- <-. discriminate Hbody. }
  unfold Service.GenerateTokens in HR.
  destruct (UserValidate _).
  { injection HR as <- <- <-. discriminate Hbody. }
  unfold Service.CreateUser in HR. cbn [ID Email Handler.new_user] in HR.
  destruct (alter _ (Hex id) users !! Hex id) eqn:Hid.
  { injection HR as <- <- <-. discriminate Hbody. }
  apply lookup_alter_None in Hid.
  rewrite (alter_absent _ _ _ Hid) in HR.
  injection HR as <- <- <-.
  exists email, password. cbn [register_Email register_Password] in *.
  repeat split; auto using no_errors.
Qed.

(** X8.  [Register] hands out tokens or writes to the store only for a
    body that parses and whose fields pass the tags of [RegisterRequest]:
    a non-empty email of the accepted format and a password of at least 8
    characters. *)
Theorem register_only_validated
    (cfg : Config) (now : Z) (id : ObjectID) (users users' : Users)
    (c c' : Ctx) (err : option error) :
  Handler.Register is_email UserValidate cfg now id users c = (err, users', c') ->
  ResponseHeader c' <> ResponseHeader c \/ users' <> users ->
  exists email password,
    RequestBody c = Some (email, password) /\
    email <> "" /\ is_email email = true /\
    (8 <= Str.RuneCountInString password)%nat.
Proof.
  intros HR Hch. unfold Handler.Register in HR.
  destruct (RequestBody c) as [[email password]|].
  2:{ injection HR as <- <- <-. destruct Hch as [H|H]; now destruct H. }
  destruct (0 <? length _)%nat eqn:Hv.
  { injection HR as <- <- <-. destruct Hch as [H|H]; now destruct H. }
  exists email, password. split; [reflexivity|].
  apply validate_fields_nil. now apply no_errors.
Qed.

(** X9.  [Login] hands out tokens or writes to the store only when a
    stored record has the email and the password presented; the pair is
    then issued for the id and the counter of that record, and its refresh
    token is stored under that id with the used flag clear. *)
Theorem login_only_with_credentials
    (cfg : Config) (now : Z) (users users' : Users) (c c' : Ctx)
    (err : option error) :
  Handler.Login is_email cfg now users c = (err, users', c') ->
  ResponseHeader c' <> ResponseHeader c \/ users' <> users ->
  exists email password k u,
    RequestBody c = Some (email, password) /\
    users !! k = Some u /\ Email u = email /\ Password u = password /\
    err = None /\
    let access := issue now (Hex (ID u)) (Count u) Access (AccessTTL cfg) in
    let refresh := issue now (Hex (ID u)) (Count u) Refresh (RefreshTTL cfg) in
    users' = alter (set_refresh refresh false) (Hex (ID u)) users /\
    c' = HeaderAdd "refresh_token" refresh (HeaderAdd "access_token" access c).
Proof.
  intros HL Hch. unfold Handler.Login in HL.
  destruct (RequestBody c) as [[email password]|].
  2:{ injection HL as <- <- <-. destruct Hch as [H|H]; now destruct H. }
  destruct (0 <? length _)%nat.
  { injection HL as <- <- <-. destruct Hch as [H|H]; now destruct H. }
  cbn [login_Email login_Password] in HL.
  destruct (Service.LoginFromCredentials users email password)
    as [[id n] [e|]] eqn:Hlog.
  { injection HL as <- <- <-. destruct Hch as [H|H]; now destruct H. }
  destruct (login_inv _ _ _ _ _ Hlog) as (k & u & Hu & He & Hp & <- & <-).
  unfold Service.GenerateTokens in HL. injection HL as <- <- <-.
  exists email, password, k, u. repeat split; auto.
Qed.

(** X10.  Credentials that registered an account log in, when no record
    had their email before: after a successful [Register] with an email
    that no stored record had, a [Login] with the same body succeeds, and
    issues its pair for the registered id at epoch 0. *)
Theorem register_then_login
    (cfg : Config) (now now2 : Z) (id : ObjectID) (users users' : Users)
    (c c' c2 : Ctx) (err : option error) (email password : string) :
  Handler.Register is_email UserValidate cfg now id users c = (err, users', c') ->
  ResponseBody c' = Message "User Created Successfully" ->
  RequestBody c = Some (email, password) ->
  Service.by_email users email = None ->
  RequestBody c2 = RequestBody c ->
  let access := issue now2 (Hex id) 0 Access (AccessTTL cfg) in
  let refresh := issue now2 (Hex id) 0 Refresh (RefreshTTL cfg) in
  Handler.Login is_email cfg now2 users' c2 =
    (None,
     alter (set_refresh refresh false) (Hex id) users',
     HeaderAdd "refresh_token" refresh (HeaderAdd "access_token" access c2)).
Proof.
  intros HR Hbody Hreq Hmail Hsame.
  destruct (register_success_inv _ _ _ _ _ _ _ _ HR Hbody)
    as (email' & password' & Hb & Hv & Hid & ->).
  rewrite Hreq in Hb. injection Hb as <- <-.
  unfold Handler.Login. rewrite Hsame, Hreq.
  cbn [login_Email login_Password]. rewrite Hv. cbn [length Nat.ltb Nat.leb].
  unfold Service.LoginFromCredentials.
  set (nu := Handler.new_user (mkRegisterRequest email password) id
               (issue now (Hex id) 0 Refresh (RefreshTTL cfg))).
  change email with (Email nu) at 1.
  rewrite (by_email_insert users (Hex id) nu Hid Hmail).
  cbn [Password nu Handler.new_user register_Password].
  rewrite String.eqb_refl. reflexivity.
Qed.

(** X11.  The access token of a registration authenticates: after a
    successful [Register] for an id without a space, a request presenting
    the issued access token in a Bearer header passes the middleware until
    that token expires. *)
Theorem register_then_authenticate
    (cfg : Config) (now now2 : Z) (id : ObjectID) (users users' : Users)
    (c c' c2 : Ctx) (err : option error) :
  Handler.Register is_email UserValidate cfg now id users c = (err, users', c') ->
  ResponseBody c' = Message "User Created Successfully" ->
  Str.lacks " "%char (Hex id) = true ->
  Get c2 "Authorization" = "Bearer " +:+ issue now (Hex id) 0 Access (AccessTTL cfg) ->
  now2 <= now + AccessTTL cfg ->
  exists users'' c'',
    Handler.AuthenticateMiddleware cfg now2 users' c2 = (Next, users'', c'').
Proof.
  intros HR Hbody Hid Hh Hexp.
  destruct (register_success_inv _ _ _ _ _ _ _ _ HR Hbody)
    as (email & password & _ & _ & _ & ->).
  unfold Handler.AuthenticateMiddleware. rewrite Hh.
  rewrite bearer_ok.
  2:{ unfold issue, encode. cbn [class epoch expiry subject Str.lacks class_tag].
      rewrite !lacks_app. cbn [Str.lacks].
      rewrite Hid. cbn.
      assert (Hz : forall z, Str.lacks " "%char (Z_to_string z) = true).
      { intros z. unfold Z_to_string, NilZero.string_of_int, NilZero.string_of_uint.
        assert (Hu : forall d, Str.lacks " "%char (NilEmpty.string_of_uint d) = true)
          by (induction d; simpl; auto).
        destruct z as [|p|p]; cbn [Z.to_int]; [reflexivity| |];
          destruct (Pos.to_uint p) eqn:E; try reflexivity;
          rewrite <- E; cbn [Str.lacks negb Ascii.eqb]; apply Hu. }
      now rewrite !Hz. }
  rewrite tokens_cases.
  unfold Service.ValidateToken.
  rewrite CodecFacts.verify_issue by exact Hexp.
  cbn [subject epoch]. rewrite lookup_insert_eq.
  cbn [Count Handler.new_user]. eauto.
Qed.

(** X12.  A login makes rotation possible again: in a store whose records
    are filed under their ids, the refresh token a [Login] issues is
    accepted by [ValidateRefreshToken] until it expires, whatever the used
    flag was before. *)
Theorem login_refresh_token_accepted
    (cfg : Config) (now now2 : Z) (users : Users) (c c2 : Ctx)
    (email password : string) (id : ObjectID) (n : Z) :
  Traffic.keyed users ->
  RequestBody c = Some (email, password) ->
  Handler.validate_fields is_email email password = [] ->
  Service.LoginFromCredentials users email password = (id, n, None) ->
  now2 <= now + RefreshTTL cfg ->
  Handler.ValidateRefreshToken now2
    (snd (fst (Handler.Login is_email cfg now users c))) c2
    (issue now (Hex id) n Refresh (RefreshTTL cfg))
  = (n, None).
Proof.
  intros Hkeyed Hbody Hvalid Hlog Hexp.
  unfold Handler.Login. rewrite Hbody. cbn [login_Email login_Password].
  rewrite Hvalid, Hlog. cbn [length Nat.ltb Nat.leb].
  unfold Service.GenerateTokens. cbn [fst snd].
  destruct (login_inv _ _ _ _ _ Hlog) as (k & u & Hu & _ & _ & <- & <-).
  rewrite <- (Hkeyed _ _ Hu) in Hu.
  eapply refresh_accepted.
  - unfold Service.ValidateToken.
    rewrite CodecFacts.verify_issue by exact Hexp.
    cbn [subject epoch]. rewrite lookup_alter_eq, Hu. cbn.
    now rewrite Z.eqb_refl.
  - now rewrite lookup_alter_eq, Hu.
  - reflexivity.
Qed.

End Accounts.

End AccountFacts.

(** Bob's registration and what follows it, for the account properties. *)
Module AccountWitnesses.

Import Codec.

Lemma register_only_validated_witness :
  exists email password,
    RequestBody (Sample.credentials "bob@example.org" "correct horse")
      = Some (email, password) /\
    email <> "" /\ Sample.no_email_check email = true /\
    (8 <= Str.RuneCountInString password)%nat.
Proof.
  apply (AccountFacts.register_only_validated Sample.no_email_check
           Sample.accept_user Sample.cfg 1000 Sample.bob_id ∅ Sample.registered
           (Sample.credentials "bob@example.org" "correct horse")
           (snd (Handler.Register Sample.no_email_check Sample.accept_user
                   Sample.cfg 1000 Sample.bob_id ∅
                   (Sample.credentials "bob@example.org" "correct horse")))
           None).
  - vm_compute. reflexivity.
  - left. vm_compute. discriminate.
Defined.

Lemma login_only_with_credentials_witness :
  exists email password k u,
    RequestBody (Sample.credentials "bob@example.org" "correct horse")
      = Some (email, password) /\
    Sample.registered !! k = Some u /\ Email u = email /\ Password u = password /\
    @None error = None /\
    let access := issue 1500 (Hex (ID u)) (Count u) Access (AccessTTL Sample.cfg) in
    let refresh := issue 1500 (Hex (ID u)) (Count u) Refresh (RefreshTTL Sample.cfg) in
    Sample.relogged = alter (set_refresh refresh false) (Hex (ID u)) Sample.registered /\
    snd (Handler.Login Sample.no_email_check Sample.cfg 1500 Sample.registered
           (Sample.credentials "bob@example.org" "correct horse"))
      = HeaderAdd "refresh_token" refresh
          (HeaderAdd "access_token" access
             (Sample.credentials "bob@example.org" "correct horse")).
Proof.
  apply (AccountFacts.login_only_with_credentials Sample.no_email_check
           Sample.cfg 1500 Sample.registered Sample.relogged
           (Sample.credentials "bob@example.org" "correct horse")).
  - vm_compute. reflexivity.
  - left. vm_compute. discriminate.
Defined.

Lemma register_then_login_witness :
  Handler.Login Sample.no_email_check Sample.cfg 1500 Sample.registered
    (Sample.credentials "bob@example.org" "correct horse") =
    (None,
     alter (set_refresh (issue 1500 (Hex Sample.bob_id) 0 Refresh
                           (RefreshTTL Sample.cfg)) false)
       (Hex Sample.bob_id) Sample.registered,
     HeaderAdd "refresh_token"
       (issue 1500 (Hex Sample.bob_id) 0 Refresh (RefreshTTL Sample.cfg))
       (HeaderAdd "access_token"
          (issue 1500 (Hex Sample.bob_id) 0 Access (AccessTTL Sample.cfg))
          (Sample.credentials "bob@example.org" "correct horse"))).
Proof.
  apply (AccountFacts.register_then_login Sample.no_email_check Sample.accept_user
           Sample.cfg 1000 1500 Sample.bob_id ∅ Sample.registered
           (Sample.credentials "bob@example.org" "correct horse")
           (snd (Handler.Register Sample.no_email_check Sample.accept_user
                   Sample.cfg 1000 Sample.bob_id ∅
                   (Sample.credentials "bob@example.org" "correct horse")))
           (Sample.credentials "bob@example.org" "correct horse") None
           "bob@example.org" "correct horse").
  - vm_compute. reflexivity.
  - vm_compute. reflexivity.
  - reflexivity.
  - vm_compute. reflexivity.
  - reflexivity.
Defined.

Lemma register_then_authenticate_witness :
  exists users'' c'',
    Handler.AuthenticateMiddleware Sample.cfg 1200 Sample.registered
      (Sample.request Sample.bob_access Sample.bob_refresh)
    = (Next, users'', c'').
Proof.
  apply (AccountFacts.register_then_authenticate Sample.no_email_check
           Sample.accept_user Sample.cfg 1000 1200 Sample.bob_id ∅
           Sample.registered
           (Sample.credentials "bob@example.org" "correct horse")
           (snd (Handler.Register Sample.no_email_check Sample.accept_user
                   Sample.cfg 1000 Sample.bob_id ∅
                   (Sample.credentials "bob@example.org" "correct horse")))
           (Sample.request Sample.bob_access Sample.bob_refresh) None).
  - vm_compute. reflexivity.
  - vm_compute. reflexivity.
  - vm_compute. reflexivity.
  - vm_compute. reflexivity.
  - vm_compute. discriminate.
Defined.

(** Bob's flag is set by his request at time 1200; he logs in at 1500. *)
Lemma login_refresh_token_accepted_witness :
  Handler.ValidateRefreshToken 2000
    (snd (fst (Handler.Login Sample.no_email_check Sample.cfg 1500
                 Sample.after_request
                 (Sample.credentials "bob@example.org" "correct horse"))))
    (Sample.request Sample.garbage "")
    (issue 1500 (Hex Sample.bob_id) 0 Refresh (RefreshTTL Sample.cfg))
  = (0, None).
Proof.
  apply (AccountFacts.login_refresh_token_accepted Sample.no_email_check
           Sample.cfg 1500 2000 Sample.after_request
           (Sample.credentials "bob@example.org" "correct horse")
           (Sample.request Sample.garbage "")
           "bob@example.org" "correct horse" Sample.bob_id 0).
  - intros k u Hu.
    assert (E : Sample.after_request =
                  <[Sample.bob_id :=
                      set_refresh (issue 1200 Sample.bob_id 0 Refresh 2592000) true
                        (Handler.new_user
                           (mkRegisterRequest "bob@example.org" "correct horse")
                           Sample.bob_id Sample.bob_refresh)]> ∅)
      by (vm_compute; reflexivity).
    rewrite E in Hu.
    apply lookup_insert_Some in Hu as [[<- <-]|[_ Hu]]; [reflexivity|].
    rewrite lookup_empty in Hu. discriminate Hu.
  - reflexivity.
  - vm_compute. reflexivity.
  - vm_compute. reflexivity.
  - vm_compute. discriminate.
Defined.

End AccountWitnesses.

(** ** What stays true while requests are served *)

Module TrafficFacts.

Import Codec ServiceFacts HandlerFacts GateFacts AccountFacts.

Lemma kept_refl (u : User) : Traffic.kept u u.
Proof. unfold Traffic.kept. repeat split; lia. Qed.

Lemma kept_trans (u v w : User) :
  Traffic.kept u v -> Traffic.kept v w -> Traffic.kept u w.
Proof. unfold Traffic.kept. intros (-> & -> & -> & ?) (-> & -> & -> & ?).
  repeat split; lia. Qed.

Lemma kept_set_refresh (tok : string) (b : bool) (u : User) :
  Traffic.kept u (set_refresh tok b u).
Proof. unfold Traffic.kept. cbn. repeat split; lia. Qed.

Lemma kept_set_count (u : User) : Traffic.kept u (set_count (Count u + 1) u).
Proof. unfold Traffic.kept. cbn. repeat split; lia. Qed.

Lemma alter_lookup_kept (f : User -> User) (k j : string) (users : Users) (u' : User) :
  (forall u, Traffic.kept u (f u)) ->
  alter f k users !! j = Some u' ->
  exists u, users !! j = Some u /\ Traffic.kept u u'.
Proof.
  intros Hf H. apply lookup_alter_Some in H as [(-> & u & Hu & ->)|[_ Hu]].
  - eauto.
  - eauto using kept_refl.
Qed.

Section Accounts.

Variable is_email : string -> bool.
Variable UserValidate : User -> option error.

(** A request leaves the store as it was, or rewrites one record keeping
    who it is, or files one new record under its own id, which is fresh. *)
Lemma handle_step (cfg : Config) (users : Users) (r : Traffic.Request) :
  let users' := Traffic.handle is_email UserValidate cfg users r in
  users' = users \/
  (exists f k, (forall u, Traffic.kept u (f u)) /\ users' = alter f k users) \/
  (exists nu,
     users !! Hex (ID nu) = None /\
     users' = <[Hex (ID nu) := nu]> users).
Proof.
  destruct r as [now c|now id c|now c|now c]; cbn [Traffic.handle].
  - unfold Handler.Login.
    destruct (RequestBody c) as [[email password]|]; [|now left].
    destruct (0 <? length _)%nat; [now left|].
    destruct (Service.LoginFromCredentials _ _ _) as [[id n] [e|]]; [now left|].
    unfold Service.GenerateTokens. cbn [fst snd].
    right. left. eexists _, _. split; [|reflexivity].
    intros u. apply kept_set_refresh.
  - destruct (Handler.Register is_email UserValidate cfg now id users c)
      as [[err users'] c'] eqn:HR. cbn [fst snd].
    unfold Handler.Register in HR.
    destruct (RequestBody c) as [[email password]|].
    2:{ injection HR as <- <- <-. now left. }
    destruct (0 <? length _)%nat.
    { injection HR as <- <- <-. now left. }
    unfold Service.GenerateTokens in HR.
    assert (Halt : exists f k, (forall u, Traffic.kept u (f u)) /\
              alter (set_refresh (issue now (Hex id) 0 Refresh (RefreshTTL cfg)) false)
                (Hex id) users = alter f k users).
    { eexists _, _. split; [|reflexivity]. intros u. apply kept_set_refresh. }
    destruct (UserValidate _).
    { injection HR as <- <- <-. right. left. exact Halt. }
    unfold Service.CreateUser in HR. cbn [ID Email Handler.new_user] in HR.
    destruct (alter _ (Hex id) users !! Hex id) eqn:Hid.
    { injection HR as <- <- <-. right. left. exact Halt. }
    injection HR as <- <- <-.
    apply lookup_alter_None in Hid.
    rewrite (alter_absent _ _ _ Hid).
    right. right.
    exists (Handler.new_user (mkRegisterRequest email password) id
              (issue now (Hex id) 0 Refresh (RefreshTTL cfg))).
    cbn [ID Email Handler.new_user register_Email]. auto.
  - destruct (Handler.AuthenticateMiddleware cfg now users c)
      as [[fl users'] c'] eqn:HM. cbn [fst snd].
    destruct (middleware_store _ _ _ _ _ _ _ HM) as [->|(id & tok & _ & ->)];
      [now left|].
    right. left. eexists _, _. split; [|reflexivity].
    intros u. apply kept_set_refresh.
  - unfold Handler.Logout.
    destruct (Handler.bearer _) as [tok|e]; [|now left].
    destruct (Service.ValidateToken now users tok) as [[p n] [e|]]; [now left|].
    unfold Service.InvalidateTokens. cbn [fst snd].
    right. left. eexists _, _. split; [|reflexivity].
    intros u. apply kept_set_count.
Qed.

Lemma handle_grows (cfg : Config) (users : Users) (r : Traffic.Request)
    (k : string) (u : User) :
  users !! k = Some u ->
  exists u',
    Traffic.handle is_email UserValidate cfg users r !! k = Some u' /\
    Traffic.kept u u'.
Proof.
  intros Hu.
  destruct (handle_step cfg users r) as [->|[(f & j & Hf & ->)|(nu & Hfresh & ->)]].
  - eauto using kept_refl.
  - rewrite lookup_alter. case_decide; subst; rewrite Hu; cbn; eauto using kept_refl.
  - rewrite lookup_insert_ne by congruence. eauto using kept_refl.
Qed.

Lemma handle_keyed (cfg : Config) (users : Users) (r : Traffic.Request) :
  Traffic.keyed users ->
  Traffic.keyed (Traffic.handle is_email UserValidate cfg users r).
Proof.
  intros Hk.
  destruct (handle_step cfg users r) as [->|[(f & j & Hf & ->)|(nu & Hfresh & ->)]].
  - exact Hk.
  - intros k u' H.
    destruct (alter_lookup_kept _ _ _ _ _ Hf H) as (u & Hu & (Hid & _)).
    unfold Hex in *. rewrite Hid. exact (Hk _ _ Hu).
  - intros k u H.
    apply lookup_insert_Some in H as [[<- <-]|[_ H]]; [reflexivity | eauto].
Qed.

(** X13.  However many logins, registrations, protected requests and
    logouts are served, no record is removed, the id, email and password
    of a record stay as they are, and its counter never goes back. *)
Theorem serve_keeps_records (cfg : Config) (reqs : list Traffic.Request)
    (users : Users) (k : string) (u : User) :
  users !! k = Some u ->
  exists u',
    Traffic.serve is_email UserValidate cfg users reqs !! k = Some u' /\
    Traffic.kept u u'.
Proof.
  revert users u. induction reqs as [|r reqs IH]; intros users u Hu.
  - exists u. split; [exact Hu | apply kept_refl].
  - destruct (handle_grows cfg users r k u Hu) as (v & Hv & Huv).
    destruct (IH _ _ Hv) as (w & Hw & Hvw).
    exists w. split; [exact Hw | eapply kept_trans; eauto].
Qed.

(** X14.  Serving requests keeps every record filed under its own id: if
    the key of every record is the hex form of its [ID], the same holds
    after any sequence of logins, registrations, protected requests and
    logouts. *)
Theorem serve_keeps_keyed (cfg : Config) (reqs : list Traffic.Request)
    (users : Users) :
  Traffic.keyed users ->
  Traffic.keyed (Traffic.serve is_email UserValidate cfg users reqs).
Proof.
  revert users. induction reqs as [|r reqs IH]; intros users Hk.
  - exact Hk.
  - exact (IH _ (handle_keyed cfg users r Hk)).
Qed.

End Accounts.

(** Bob's record through a login, a protected request and a logout. *)
Lemma serve_keeps_records_witness :
  exists u',
    Traffic.serve Sample.no_email_check Sample.accept_user Sample.cfg
      Sample.registered
      [Traffic.ToLogin 1500 (Sample.credentials "bob@example.org" "correct horse");
       Traffic.ToProtected 1600 (Sample.request Sample.bob_access "");
       Traffic.ToLogout 1700 (Sample.request Sample.bob_access "")]
      !! Sample.bob_id = Some u' /\
    Traffic.kept
      (Handler.new_user (mkRegisterRequest "bob@example.org" "correct horse")
         Sample.bob_id Sample.bob_refresh) u'.
Proof.
  apply (serve_keeps_records Sample.no_email_check Sample.accept_user Sample.cfg).
  vm_compute. reflexivity.
Defined.

(** Bob's store through Ann's registration and a request of Bob's. *)
Lemma serve_keeps_keyed_witness :
  Traffic.keyed
    (Traffic.serve Sample.no_email_check Sample.accept_user Sample.cfg
       Sample.registered
       [Traffic.ToRegister 1100 Sample.ann_id
          (Sample.credentials "ann@example.org" "battery staple");
        Traffic.ToProtected 1200 (Sample.request Sample.bob_access "")]).
Proof.
  apply (serve_keeps_keyed Sample.no_email_check Sample.accept_user Sample.cfg).
  intros k u Hu.
  assert (E : Sample.registered =
                <[Sample.bob_id :=
                    Handler.new_user
                      (mkRegisterRequest "bob@example.org" "correct horse")
                      Sample.bob_id Sample.bob_refresh]> ∅)
    by (vm_compute; reflexivity).
  rewrite E in Hu.
  apply lookup_insert_Some in Hu as [[<- <-]|[_ Hu]]; [reflexivity|].
  rewrite lookup_empty in Hu. discriminate Hu.
Defined.

End TrafficFacts.
